(** * dfcx_scrapi.builders.intent: the Intent builder

    A shallow embedding of [src/dfcx_scrapi/builders/intent.py] and the
    properties of its functions.

    The module has one free function, [build_intent], and one class,
    [IntentBuilder], whose methods assemble an [Intent] message of the
    Dialogflow CX client library in the attribute [proto_obj].

    Python values are objects with identity.  The two kinds of mutable
    objects the methods touch, the caller's lists and the [Intent]
    messages, live in a store and are passed by reference; everything
    else is immutable and passed by value. *)

From Stdlib Require Import ZArith.
From stdpp Require Import base option list strings pretty gmap fin_maps.

Local Open Scope string_scope.
Local Open Scope Z_scope.
Local Open Scope list_scope.
Local Open Scope stdpp_scope.

(** ** Python values and exceptions *)

(** Atoms: what may sit in a list given for [phrase] or [annotations]. *)
Inductive pyval : Type :=
| PyNone
| PyBool (b : bool)
| PyInt (z : Z)
| PyStr (s : string).

(** Objects seen by [build_intent]: an atom or a [dict] with string keys,
    kept in insertion order. *)
#[local] Set Warnings "-register-all".
Inductive pyobj : Type :=
| PyVal (v : pyval)
| PyDict (d : list (string * pyobj)).
#[local] Set Warnings "register-all".

(** The exception classes raised by the module or by the operations it
    uses.  Those raised by the module carry its message. *)
Inductive exn : Type :=
| ValueError (msg : string)
| IndexError (msg : string)
| Exception (msg : string)
| AttributeError
| TypeError
| KeyError (key : string).

Inductive outcome (A : Type) : Type :=
| Returns (a : A)
| Raises (e : exn).
Arguments Returns {A} a.
Arguments Raises {A} e.

#[global] Instance pyval_eq_dec : EqDecision pyval.
Proof. solve_decision. Defined.
#[global] Instance exn_eq_dec : EqDecision exn.
Proof. solve_decision. Defined.

#[global] Instance outcome_ret : MRet outcome := @Returns.
#[global] Instance outcome_bind : MBind outcome := λ A B f m,
  match m with
  | Returns a => f a
  | Raises e => Raises e
  end.

(** [isinstance(v, str)] *)
Definition isinstance_str (v : pyval) : bool :=
  match v with PyStr _ => true | _ => false end.

(** Truth value of an atom: [bool(v)]. *)
Definition pyval_bool (v : pyval) : bool :=
  match v with
  | PyNone => false
  | PyBool b => b
  | PyInt z => negb (Z.eqb z 0)
  | PyStr s => negb (String.eqb s "")
  end.

(** ** [build_intent] *)

Module Dict.
(** [d[key]] on a [dict] *)
Fixpoint get (d : list (string * pyobj)) (key : string) : option pyobj :=
  match d with
  | [] => None
  | (k, v) :: d' => if String.eqb k key then Some v else get d' key
  end.

(** [d[key] = v]: an existing key keeps its place, a new one goes last. *)
Fixpoint set (d : list (string * pyobj)) (key : string) (v : pyobj)
  : list (string * pyobj) :=
  match d with
  | [] => [(key, v)]
  | (k, w) :: d' =>
      if String.eqb k key then (k, v) :: d' else (k, w) :: set d' key v
  end.
End Dict.

(** [row[key]]: subscription.  A [dict] without the key raises [KeyError];
    a [str] does not take a string index and the other atoms are not
    subscriptable, both [TypeError]. *)
Definition getitem (row : pyobj) (key : string) : outcome pyobj :=
  match row with
  | PyDict d =>
      match Dict.get d key with
      | Some v => Returns v
      | None => Raises (KeyError key)
      end
  | PyVal _ => Raises TypeError
  end.

(** The comprehension [{"text": row["text"] for row in phrases}], run from
    the dict built so far. *)
Fixpoint build_intent_tps (tps : list (string * pyobj)) (phrases : list pyobj)
  : outcome (list (string * pyobj)) :=
  match phrases with
  | [] => Returns tps
  | row :: rest =>
      v ← getitem row "text";
      build_intent_tps (Dict.set tps "text" v) rest
  end.

(** [build_intent(display_name, phrases)].  The call of [logging.info] has
    no effect on the result and is left out. *)
Definition build_intent (display_name : pyobj) (phrases : list pyobj)
  : outcome pyobj :=
  tps ← build_intent_tps [] phrases;
  let intent := PyDict [("display_name", display_name);
                        ("training_phrases", PyDict tps)] in
  Returns intent.

(** ** The messages of the client library

    [types.Intent] and its nested messages are declared by the client
    library, not by this module. *)

(** Modelled from the spec: [types.Intent.TrainingPhrase.Part], a span of
    text and the id of the parameter it is annotated with, the empty
    string for none. *)
Record Part : Type := {
  text : string;
  parameter_id : string
}.

(** Modelled from the spec: [types.Intent.TrainingPhrase], an ordered
    sequence of parts and a repeat count. *)
Record TrainingPhrase : Type := {
  parts : list Part;
  repeat_count : Z
}.

(** Modelled from the spec: [types.Intent.Parameter]. *)
Record IntentParameter : Type := {
  id : string;
  entity_type : string;
  is_list : bool;
  redact : bool
}.

(** Modelled from the spec: [types.Intent], with the fields the data model
    lists.  [description] is a string field: a message that was given no
    description reads the empty string there. *)
Record Intent : Type := {
  display_name : string;
  priority : Z;
  is_fallback : bool;
  description : string;
  training_phrases : list TrainingPhrase;
  parameters : list IntentParameter;
  labels : gmap string string
}.

#[global] Instance Part_eq_dec : EqDecision Part.
Proof. solve_decision. Defined.
#[global] Instance TrainingPhrase_eq_dec : EqDecision TrainingPhrase.
Proof. solve_decision. Defined.
#[global] Instance IntentParameter_eq_dec : EqDecision IntentParameter.
Proof. solve_decision. Defined.
#[global] Instance Intent_eq_dec : EqDecision Intent.
Proof. solve_decision. Defined.

(** [types.Intent()]: every field at its default. *)
Definition Intent_default : Intent :=
  {| display_name := ""; priority := 0; is_fallback := false;
     description := ""; training_phrases := []; parameters := [];
     labels := ∅ |}.

(** [bool(intent)], the truth value that the client library gives its
    messages: true when some field holds a value other than the default
    of the field, and false otherwise.  So [types.Intent()] is false. *)
Definition Intent_bool (i : Intent) : bool :=
  negb (String.eqb (display_name i) "")
  || negb (Z.eqb (priority i) 0)
  || is_fallback i
  || negb (String.eqb (description i) "")
  || negb (bool_decide (training_phrases i = []))
  || negb (bool_decide (parameters i = []))
  || negb (bool_decide (labels i = ∅)).

(** [priority] and [repeat_count] are 32-bit integer fields.  A message
    constructor that is given an integer outside their range raises
    [ValueError], with the text of the protocol buffer runtime. *)
Definition int32_min : Z := -2147483648.
Definition int32_max : Z := 2147483647.

Definition in_int32 (z : Z) : bool :=
  Z.leb int32_min z && Z.leb z int32_max.

Definition out_of_range_msg (z : Z) : string :=
  "Value out of range: " +:+ pretty z.

(** Field updates, as the methods perform them. *)
Definition Intent_append_training_phrase (tp : TrainingPhrase) (i : Intent)
  : Intent :=
  {| display_name := display_name i; priority := priority i;
     is_fallback := is_fallback i; description := description i;
     training_phrases := training_phrases i ++ [tp];
     parameters := parameters i; labels := labels i |}.

Definition Intent_append_parameter (p : IntentParameter) (i : Intent)
  : Intent :=
  {| display_name := display_name i; priority := priority i;
     is_fallback := is_fallback i; description := description i;
     training_phrases := training_phrases i;
     parameters := parameters i ++ [p]; labels := labels i |}.

(** [intent.labels.update(d)]: the keys of [d] are set, the others stay. *)
Definition Intent_update_labels (d : gmap string string) (i : Intent)
  : Intent :=
  {| display_name := display_name i; priority := priority i;
     is_fallback := is_fallback i; description := description i;
     training_phrases := training_phrases i;
     parameters := parameters i; labels := d ∪ labels i |}.

(** ** The store and the builder

    [lists] holds the list objects of the caller, [intents] the [Intent]
    messages; a location is the identity of an object.  [proto_obj] is
    the attribute of the one builder at hand: [None] as long as no
    method has assigned it ([__init__] assigns nothing), and else the
    location of the message it refers to. *)

Definition loc : Type := positive.

Record state : Type := {
  lists : gmap loc (list pyval);
  intents : gmap loc Intent;
  proto_obj : option loc
}.

(** A computation runs from a state to an outcome and a state; an
    exception leaves the state as it was when it was raised.  The result
    [None] stands for the use of a location that holds no object, which
    no Python program can do. *)
Definition M (A : Type) : Type := state → option (outcome A * state).

#[global] Instance M_ret : MRet M := λ A a σ, Some (Returns a, σ).
#[global] Instance M_bind : MBind M := λ A B f m σ,
  match m σ with
  | Some (Returns a, σ') => f a σ'
  | Some (Raises e, σ') => Some (Raises e, σ')
  | None => None
  end.

Definition raise {A : Type} (e : exn) : M A := λ σ, Some (Raises e, σ).

(** [try: m except: h] *)
Definition try_except {A : Type} (m : M A) (h : exn → M A) : M A := λ σ,
  match m σ with
  | Some (Raises e, σ') => h e σ'
  | r => r
  end.

(** [self.proto_obj]: reading an attribute that was never assigned raises
    [AttributeError]. *)
Definition get_proto_obj : M loc := λ σ,
  match proto_obj σ with
  | Some o => Some (Returns o, σ)
  | None => Some (Raises AttributeError, σ)
  end.

(** [self.proto_obj = o] *)
Definition set_proto_obj (o : loc) : M unit := λ σ,
  Some (Returns tt,
        {| lists := lists σ; intents := intents σ; proto_obj := Some o |}).

Definition read_intent (o : loc) : M Intent := λ σ,
  (λ i, (Returns i, σ)) <$> intents σ !! o.

Definition write_intent (o : loc) (i : Intent) : M unit := λ σ,
  (λ _, (Returns tt,
         {| lists := lists σ; intents := <[o := i]> (intents σ);
            proto_obj := proto_obj σ |})) <$> intents σ !! o.

(** A new message, at a location not in use. *)
Definition new_intent (i : Intent) : M loc := λ σ,
  let o := fresh (dom (intents σ)) in
  Some (Returns o,
        {| lists := lists σ; intents := <[o := i]> (intents σ);
           proto_obj := proto_obj σ |}).

Definition read_list (l : loc) : M (list pyval) := λ σ,
  (λ v, (Returns v, σ)) <$> lists σ !! l.

(** [l.extend(more)]: in place. *)
Definition list_extend (l : loc) (more : list pyval) : M unit := λ σ,
  (λ v, (Returns tt,
         {| lists := <[l := v ++ more]> (lists σ); intents := intents σ;
            proto_obj := proto_obj σ |})) <$> lists σ !! l.

(** [for x in xs: body(x)] *)
Fixpoint for_each {A : Type} (xs : list A) (body : A → M unit) : M unit :=
  match xs with
  | [] => mret tt
  | x :: xs' => body x ;; for_each xs' body
  end.

(** *** [_check_intent_exist] *)

Definition no_proto_obj_msg : string :=
  "There is no proto_obj! Create or load one to continue.".

Definition _check_intent_exist : M unit :=
  o ← get_proto_obj;
  i ← read_intent o;
  if negb (Intent_bool i) then raise (ValueError no_proto_obj_msg)
  else mret tt.

(** *** [load_intent] and [create_empty_intent] *)

Definition load_intent (obj : loc) : M loc :=
  set_proto_obj obj ;;
  get_proto_obj.

Definition default_priority : Z := 500000.

(** [types.Intent(display_name=..., priority=..., is_fallback=...,
    description=...)]: a new message.  An argument that is [None] is
    passed over, which leaves the field at its default; a [priority]
    outside the 32-bit range is refused, and then no message is made. *)
Definition new_Intent (display_name : string) (priority : Z)
    (is_fallback : bool) (description : option string) : M loc :=
  if in_int32 priority
  then new_intent
         {| display_name := display_name; priority := priority;
            is_fallback := is_fallback;
            description := default "" description;
            training_phrases := []; parameters := []; labels := ∅ |}
  else raise (ValueError (out_of_range_msg priority)).

Definition create_empty_intent (display_name : string) (priority : Z)
    (is_fallback : bool) (description : option string) : M loc :=
  o ← new_Intent display_name priority is_fallback description;
  set_proto_obj o ;;
  get_proto_obj.

(** *** [_parameter_checking] *)

(** [s.remove(x)]: [KeyError] when [x] is not in the set. *)
Definition set_remove (x : string) (s : gset string) : M (gset string) :=
  if decide (x ∈ s) then mret (s ∖ {[x]}) else raise (KeyError x).

Definition parameter_missing_msg (tp_param : string) : string :=
  "parameter_id " +:+ tp_param +:+ " does not exist in parameters."
  +:+ "Please add it using add_parameter method to continue.".

Section parameter_checking.

(** The order in which a [for] loop visits a set is not fixed by the
    language; [set_iter] is that order. *)
Variable set_iter : gset string → list string.

Definition _parameter_checking : M unit :=
  o ← get_proto_obj;
  i ← read_intent o;
  let tp_params_set :=
    foldl (λ s tp, foldl (λ s part, {[parameter_id part]} ∪ s) s (parts tp))
          (∅ : gset string) (training_phrases i) in
  (* Remove the empty string for unannotated parts *)
  tp_params_set ← try_except (set_remove "" tp_params_set)
                    (λ e, match e with
                          | KeyError _ => mret tp_params_set
                          | _ => raise e
                          end);
  (* Get the parameters from proto_obj *)
  let parameters_set : gset string := list_to_set (id <$> parameters i) in
  (* Check for not existing annotated parameters *)
  for_each (set_iter tp_params_set) (λ tp_param,
    if negb (bool_decide (tp_param ∈ parameters_set))
    then raise (Exception (parameter_missing_msg tp_param))
    else mret tt).

End parameter_checking.

(** *** [add_training_phrase] *)

Definition only_strings_msg : string :=
  "Only strings allowed in phrase or annotations list".

Definition annotations_too_long_msg : string :=
  "Length of annotations list is more than phrase list!".

Definition default_repeat_count : Z := 1.

(** [types.Intent.TrainingPhrase.Part(text=..., parameter_id=...)]: both
    fields are string fields, which take nothing but a [str]. *)
Definition new_Part (text parameter_id : pyval) : M Part :=
  match text, parameter_id with
  | PyStr t, PyStr p => mret {| text := t; parameter_id := p |}
  | _, _ => raise TypeError
  end.

(** [types.Intent.TrainingPhrase(parts=..., repeat_count=...)]: a
    [repeat_count] outside the 32-bit range is refused. *)
Definition new_TrainingPhrase (parts : list Part) (repeat_count : Z)
  : M TrainingPhrase :=
  if in_int32 repeat_count
  then mret {| parts := parts; repeat_count := repeat_count |}
  else raise (ValueError (out_of_range_msg repeat_count)).

(** The loop over [zip(phrase, annotations)], from the [parts_list] built
    so far. *)
Fixpoint build_parts (pairs : list (pyval * pyval)) (parts_list : list Part)
  : M (list Part) :=
  match pairs with
  | [] => mret parts_list
  | (text, parameter_id) :: rest =>
      part ← new_Part text parameter_id;
      build_parts rest (parts_list ++ [part])
  end.

(** [phrase] and [annotations] are the locations of the caller's lists.
    [len(phrase) - len(annotations)] is computed only where it is not
    negative, so the subtraction of [nat] agrees with Python's. *)
Definition add_training_phrase (phrase annotations : loc) (repeat_count : Z)
  : M loc :=
  _check_intent_exist ;;
  (* Type / Error checking *)
  ph ← read_list phrase;
  an ← read_list annotations;
  if negb (forallb isinstance_str ph && forallb isinstance_str an)
  then raise (ValueError only_strings_msg)
  else
  if Nat.ltb (length ph) (length an)
  then raise (IndexError annotations_too_long_msg)
  else
  (* Propagate the annotations list *)
  list_extend annotations (replicate (length ph - length an) (PyStr "")) ;;
  (* Creating parts for the training phrase *)
  ph ← read_list phrase;
  an ← read_list annotations;
  parts_list ← build_parts (zip ph an) [];
  (* Create the training phrase obj and add it to the others *)
  tp ← new_TrainingPhrase parts_list repeat_count;
  o ← get_proto_obj;
  i ← read_intent o;
  write_intent o (Intent_append_training_phrase tp i) ;;
  get_proto_obj.

(** *** [add_parameter] *)

Definition add_parameter (parameter_id entity_type : string)
    (is_list redact : bool) : M loc :=
  _check_intent_exist ;;
  (* Create the new parameter and add it to the proto_obj *)
  let parameters := {| id := parameter_id; entity_type := entity_type;
                       is_list := is_list; redact := redact |} in
  o ← get_proto_obj;
  i ← read_intent o;
  write_intent o (Intent_append_parameter parameters i) ;;
  get_proto_obj.

(** *** [add_label] *)

(** The argument of [add_label]: a [list] of strings, a [dict] from
    strings to strings, or an object that is neither. *)
Inductive labels_arg : Type :=
| LabelsList (l : list string)
| LabelsDict (d : gmap string string)
| LabelsOther (v : pyval).

(** [bool(labels)]: a container is true when it is not empty. *)
Definition labels_arg_bool (labels : labels_arg) : bool :=
  match labels with
  | LabelsList l => negb (bool_decide (l = []))
  | LabelsDict d => negb (bool_decide (d = ∅))
  | LabelsOther v => pyval_bool v
  end.

Definition labels_type_msg : string :=
  "labels should be either a list or a dictionary.".

(** [{label: label for label in labels}] *)
Definition labels_of_list (labels : list string) : gmap string string :=
  foldl (λ d label, <[label := label]> d) ∅ labels.

Definition update_labels (d : gmap string string) : M unit :=
  o ← get_proto_obj;
  i ← read_intent o;
  write_intent o (Intent_update_labels d i).

Definition add_label (labels : labels_arg) : M loc :=
  _check_intent_exist ;;
  (if negb (labels_arg_bool labels) then mret tt
   else match labels with
        | LabelsList l => update_labels (labels_of_list l)
        | LabelsDict d => update_labels d
        | LabelsOther _ => raise (ValueError labels_type_msg)
        end) ;;
  get_proto_obj.

(** * Vocabulary of the statements and example stores *)

(** The builder owns the message [i], held at [o]. *)
Definition owns (σ : state) (o : loc) (i : Intent) : Prop :=
  proto_obj σ = Some o ∧ intents σ !! o = Some i.

(** The state in which the message at [o] has become [i]. *)
Definition set_intent (σ : state) (o : loc) (i : Intent) : state :=
  {| lists := lists σ; intents := <[o := i]> (intents σ);
     proto_obj := proto_obj σ |}.

(** The state in which the list at [l] has become [v]. *)
Definition set_list (σ : state) (l : loc) (v : list pyval) : state :=
  {| lists := <[l := v]> (lists σ); intents := intents σ;
     proto_obj := proto_obj σ |}.

(** The builder of [IntentBuilder()], in a store without objects. *)
Definition new_builder : state :=
  {| lists := ∅; intents := ∅; proto_obj := None |}.

(** A store with the message [i] at location 1 and the lists [ph] and
    [an] at locations 2 and 3; the builder has been given nothing yet. *)
Definition store_of (i : Intent) (ph an : list pyval) : state :=
  {| lists := {[ 2%positive := ph; 3%positive := an ]};
     intents := {[ 1%positive := i ]};
     proto_obj := None |}.

(** The same store, with the builder owning the message. *)
Definition loaded_store_of (i : Intent) (ph an : list pyval) : state :=
  {| lists := {[ 2%positive := ph; 3%positive := an ]};
     intents := {[ 1%positive := i ]};
     proto_obj := Some 1%positive |}.

(** A message that has a display name and nothing else. *)
Definition Intent_named (name : string) : Intent :=
  {| display_name := name; priority := default_priority;
     is_fallback := false; description := ""; training_phrases := [];
     parameters := []; labels := ∅ |}.

(** The builder after [load_intent(types.Intent())]. *)
Definition all_default_builder : state := loaded_store_of Intent_default [] [].

(** A message that declares the parameter "city". *)
Definition Intent_with_city : Intent :=
  {| display_name := "book"; priority := default_priority;
     is_fallback := false; description := ""; training_phrases := [];
     parameters :=
       [{| id := "city"; entity_type := "@sys.geo-city"; is_list := false;
           redact := false |}];
     labels := ∅ |}.

Definition city_builder : state := loaded_store_of Intent_with_city [] [].

(** A builder whose [proto_obj] was never assigned, in any store. *)
Definition unassigned_builder (ls : gmap loc (list pyval))
    (ms : gmap loc Intent) : state :=
  {| lists := ls; intents := ms; proto_obj := None |}.

(** A message with the label "a" set to "1". *)
Definition Intent_label_a : Intent :=
  {| display_name := "book"; priority := default_priority;
     is_fallback := false; description := ""; training_phrases := [];
     parameters := []; labels := {[ "a" := "1" ]} |}.

Definition label_a_builder : state := loaded_store_of Intent_label_a [] [].

(** The string of an atom that is a [str]. *)
Definition pyval_str (v : pyval) : string :=
  match v with PyStr s => s | _ => "" end.

(** The builder owning a named message, with the lists ["a", "b", "c"]
    and ["x"] in the store. *)
Definition abc_builder : state :=
  loaded_store_of (Intent_named "book")
    [PyStr "a"; PyStr "b"; PyStr "c"] [PyStr "x"].

(** The builder owning [types.Intent()], with the same two lists. *)
Definition abc_all_default_builder : state :=
  loaded_store_of Intent_default
    [PyStr "a"; PyStr "b"; PyStr "c"] [PyStr "x"].

(** The builder owning [types.Intent()], with the lists ["a"] and
    ["x", "y"]. *)
Definition a_xy_all_default_builder : state :=
  loaded_store_of Intent_default [PyStr "a"] [PyStr "x"; PyStr "y"].

(** The state after the call on [abc_builder]. *)
Definition abc_builder_after : state :=
  set_intent
    (set_list abc_builder 3%positive [PyStr "x"; PyStr ""; PyStr ""])
    1%positive
    (Intent_append_training_phrase
       {| parts := [{| text := "a"; parameter_id := "x" |};
                    {| text := "b"; parameter_id := "" |};
                    {| text := "c"; parameter_id := "" |}];
          repeat_count := 1 |}
       (Intent_named "book")).

(** The sets of the specification: the ids that the parts of the training
    phrases refer to, the empty string apart, and the ids of the declared
    parameters. *)
Definition referenced (i : Intent) (x : string) : Prop :=
  x ≠ "" ∧
  ∃ (tp : TrainingPhrase) (part : Part),
    tp ∈ training_phrases i ∧ part ∈ parts tp ∧ parameter_id part = x.

Definition declared (i : Intent) (x : string) : Prop :=
  ∃ p : IntentParameter, p ∈ parameters i ∧ id p = x.

(** A message with the one part ("Paris", "city") and no parameter. *)
Definition Intent_city_part : Intent :=
  {| display_name := "book"; priority := default_priority;
     is_fallback := false; description := "";
     training_phrases :=
       [{| parts := [{| text := "Paris"; parameter_id := "city" |}];
           repeat_count := 1 |}];
     parameters := []; labels := ∅ |}.

Definition city_part_builder : state :=
  loaded_store_of Intent_city_part [] [].

(** A row that [build_intent] can read: a dict with the key "text". *)
Definition has_text (row : pyobj) : Prop :=
  ∃ (d : list (string * pyobj)) (t : pyobj),
    row = PyDict d ∧ Dict.get d "text" = Some t.

(** What the subscription ["text"] raises on a row that is not such. *)
Definition text_error (row : pyobj) : exn :=
  match row with
  | PyDict _ => KeyError "text"
  | PyVal _ => TypeError
  end.

(** The builder owning a named message, with the lists ["a", 3] and
    ["x"] in the store. *)
Definition a3_builder : state :=
  loaded_store_of (Intent_named "book") [PyStr "a"; PyInt 3] [PyStr "x"].

(** The builder owning a named message, with the lists ["a"] and ["x"]
    in the store. *)
Definition a_x_builder : state :=
  loaded_store_of (Intent_named "book") [PyStr "a"] [PyStr "x"].

(** The state after [add_training_phrase] on [a_x_builder]. *)
Definition a_x_builder_after : state :=
  set_intent a_x_builder 1%positive
    (Intent_append_training_phrase
       {| parts := [{| text := "a"; parameter_id := "x" |}];
          repeat_count := 1 |}
       (Intent_named "book")).

(** [abc_builder] with the annotations padded and nothing else changed. *)
Definition abc_builder_padded : state :=
  set_list abc_builder 3%positive [PyStr "x"; PyStr ""; PyStr ""].

(** * Properties *)

Ltac unfold_M :=
  unfold mbind, mret, M_bind, M_ret, raise, try_except, get_proto_obj,
    set_proto_obj, read_intent, write_intent, new_intent, read_list,
    list_extend.

Ltac run_M := unfold_M; simpl.

(** ** The presence check *)

Lemma check_intent_exist_unset (σ : state) :
  proto_obj σ = None →
  _check_intent_exist σ = Some (Raises AttributeError, σ).
Proof. intros Hp. unfold _check_intent_exist. run_M. by rewrite Hp. Qed.

Lemma check_intent_exist_true (σ : state) (o : loc) (i : Intent) :
  owns σ o i → Intent_bool i = true →
  _check_intent_exist σ = Some (Returns tt, σ).
Proof.
  intros [Hp Hi] Hb. unfold _check_intent_exist. run_M.
  rewrite Hp. simpl. rewrite Hi. simpl. by rewrite Hb.
Qed.

Lemma check_intent_exist_false (σ : state) (o : loc) (i : Intent) :
  owns σ o i → Intent_bool i = false →
  _check_intent_exist σ = Some (Raises (ValueError no_proto_obj_msg), σ).
Proof.
  intros [Hp Hi] Hb. unfold _check_intent_exist. run_M.
  rewrite Hp. simpl. rewrite Hi. simpl. by rewrite Hb.
Qed.

(** Whatever the check returns, it leaves the state alone; and it passes
    only for a builder that owns a true message. *)
Lemma check_intent_exist_inv (σ σ' : state) (r : outcome unit) :
  _check_intent_exist σ = Some (r, σ') →
  σ' = σ ∧
  (r = Returns tt → ∃ o i, owns σ o i ∧ Intent_bool i = true).
Proof.
  unfold _check_intent_exist. run_M.
  destruct (proto_obj σ) as [o|] eqn:Hp; simpl.
  - destruct (intents σ !! o) as [i|] eqn:Hi; simpl; [|done].
    destruct (Intent_bool i) eqn:Hb; simpl; intros [= <- <-];
      (split; [done|]); [|done].
    intros _. by exists o, i.
  - intros [= <- <-]. by split.
Qed.

(** The write-back of a method that passed the check. *)
Lemma write_back (f : Intent → Intent) (σ : state) (o : loc) (i : Intent) :
  owns σ o i →
  (o ← get_proto_obj; j ← read_intent o; write_intent o (f j) ;; get_proto_obj) σ
  = Some (Returns o, set_intent σ o (f i)).
Proof.
  intros [Hp Hi]. run_M. unfold set_intent.
  repeat (first [rewrite Hp | rewrite Hi]; simpl). done.
Qed.

Lemma bind_returns {A B : Type} (m : M A) (f : A → M B) (σ σ' : state) (a : A) :
  m σ = Some (Returns a, σ') → (m ≫= f) σ = f a σ'.
Proof. intros H. unfold mbind, M_bind. by rewrite H. Qed.

Lemma bind_raises {A B : Type} (m : M A) (f : A → M B) (σ σ' : state) (e : exn) :
  m σ = Some (Raises e, σ') → (m ≫= f) σ = Some (Raises e, σ').
Proof. intros H. unfold mbind, M_bind. by rewrite H. Qed.

(** A method that starts with the check raises what the check raises. *)
Lemma checked_raises {A : Type} (rest : M A) (σ : state) (e : exn) :
  _check_intent_exist σ = Some (Raises e, σ) →
  (_check_intent_exist ;; rest) σ = Some (Raises e, σ).
Proof. apply bind_raises. Qed.

Lemma checked_returns {A : Type} (rest : M A) (σ : state) (o : loc) (i : Intent) :
  owns σ o i → Intent_bool i = true →
  (_check_intent_exist ;; rest) σ = rest σ.
Proof.
  intros Ho Hb. by rewrite (bind_returns _ _ σ σ tt)
    by by eapply check_intent_exist_true.
Qed.

(** ** [create_empty_intent] *)

Lemma in_int32_bounds (z : Z) :
  in_int32 z = true ↔ -2147483648 ≤ z ≤ 2147483647.
Proof.
  unfold in_int32, int32_min, int32_max.
  rewrite andb_true_iff, !Z.leb_le. done.
Qed.

Lemma in_int32_not_bounds (z : Z) :
  in_int32 z = false ↔ ¬ (-2147483648 ≤ z ≤ 2147483647).
Proof.
  rewrite <- in_int32_bounds. by destruct (in_int32 z).
Qed.

Lemma create_empty_intent_run (σ : state) (name : string) (prio : Z)
    (fallback : bool) (descr : option string) :
  create_empty_intent name prio fallback descr σ =
    if in_int32 prio
    then Some (Returns (fresh (dom (intents σ))),
               {| lists := lists σ;
                  intents :=
                    <[fresh (dom (intents σ)) :=
                        {| display_name := name; priority := prio;
                           is_fallback := fallback;
                           description := default "" descr;
                           training_phrases := []; parameters := [];
                           labels := ∅ |}]> (intents σ);
                  proto_obj := Some (fresh (dom (intents σ))) |})
    else Some (Raises (ValueError (out_of_range_msg prio)), σ).
Proof.
  unfold create_empty_intent, new_Intent.
  destruct (in_int32 prio); by run_M.
Qed.

(** C5, with the priority within the 32-bit range and the description
    read back as the empty string when none was given.  Whatever the
    builder and the store were before, [create_empty_intent] returns a
    new message, distinct from every message of the store, which the
    builder owns from then on; its display name, priority and
    [is_fallback] are the arguments as given, its description is the
    string given, or the empty string for [None], and its training
    phrases, parameters and labels are empty.  Nothing of a message owned
    before is carried over, and no other object changes. *)
Theorem create_empty_intent_fresh_and_empty
    (σ : state) (name : string) (prio : Z) (fallback : bool)
    (descr : option string) :
  -2147483648 ≤ prio ≤ 2147483647 →
  ∃ o : loc,
    intents σ !! o = None ∧
    create_empty_intent name prio fallback descr σ =
      Some (Returns o,
            {| lists := lists σ;
               intents :=
                 <[o := {| display_name := name; priority := prio;
                           is_fallback := fallback;
                           description :=
                             match descr with Some d => d | None => "" end;
                           training_phrases := []; parameters := [];
                           labels := ∅ |}]> (intents σ);
               proto_obj := Some o |}).
Proof.
  intros Hprio. exists (fresh (dom (intents σ))). split.
  - apply not_elem_of_dom, is_fresh.
  - rewrite create_empty_intent_run.
    rewrite (proj2 (in_int32_bounds prio)) by done. by destruct descr.
Qed.

Lemma create_empty_intent_fresh_and_empty_witness :
  -2147483648 ≤ default_priority ≤ 2147483647 ∧
  ∃ o : loc,
    intents city_builder !! o = None ∧
    create_empty_intent "pay" default_priority true (Some "payments")
      city_builder =
      Some (Returns o,
            {| lists := lists city_builder;
               intents :=
                 <[o := {| display_name := "pay";
                           priority := default_priority;
                           is_fallback := true; description := "payments";
                           training_phrases := []; parameters := [];
                           labels := ∅ |}]> (intents city_builder);
               proto_obj := Some o |}).
Proof.
  assert (Hprio : -2147483648 ≤ default_priority ≤ 2147483647)
    by (unfold default_priority; lia).
  split; [exact Hprio|].
  exact (create_empty_intent_fresh_and_empty city_builder "pay"
           default_priority true (Some "payments") Hprio).
Defined.

(** With the default [description=None] the new message does not hold
    the argument: its description is the empty string.  And a priority
    just above the 32-bit range makes no message at all. *)
Lemma create_empty_intent_description_not_verbatim :
  (∃ (o : loc) (σ' : state) (i : Intent),
     create_empty_intent "book" default_priority false None new_builder
       = Some (Returns o, σ') ∧
     intents σ' !! o = Some i ∧
     description i = "" ∧
     Some (description i) ≠ (None : option string)) ∧
  create_empty_intent "book" 2147483648 false None city_builder
  = Some (Raises (ValueError "Value out of range: 2147483648"), city_builder).
Proof.
  split; [|vm_compute; reflexivity].
  eexists _, _, _. split; [vm_compute; reflexivity|].
  split; [vm_compute; reflexivity|]. split; done.
Qed.

Example create_empty_intent_twice :
  fst <$> (create_empty_intent "book" default_priority false None ;;
           add_parameter "city" "@sys.geo-city" false false ;;
           add_label (LabelsList ["vip"]) ;;
           o ← create_empty_intent "pay" 7 true (Some "payments");
           read_intent o) new_builder
  = Some (Returns {| display_name := "pay"; priority := 7;
                     is_fallback := true; description := "payments";
                     training_phrases := []; parameters := [];
                     labels := ∅ |}).
Proof. vm_compute. reflexivity. Qed.

(** ** [add_parameter] *)

Lemma add_parameter_owned (σ : state) (o : loc) (i : Intent)
    (pid etype : string) (lst red : bool) :
  owns σ o i → Intent_bool i = true →
  add_parameter pid etype lst red σ =
    Some (Returns o,
          set_intent σ o
            (Intent_append_parameter
               {| id := pid; entity_type := etype; is_list := lst;
                  redact := red |} i)).
Proof.
  intros Ho Hb. unfold add_parameter.
  rewrite (checked_returns _ σ o i) by done.
  by apply (write_back (Intent_append_parameter _)).
Qed.

(** X16. On a builder that owns a message passing the check,
    [add_parameter] returns the owned message, to whose
    parameters the new one has been appended, whether or not a parameter
    of that id was there already; no other field and no other object
    changes. *)
Theorem add_parameter_appends (σ : state) (o : loc) (i : Intent)
    (pid etype : string) (lst red : bool) :
  owns σ o i → Intent_bool i = true →
  add_parameter pid etype lst red σ =
    Some (Returns o,
          {| lists := lists σ;
             intents :=
               <[o := {| display_name := display_name i;
                         priority := priority i;
                         is_fallback := is_fallback i;
                         description := description i;
                         training_phrases := training_phrases i;
                         parameters :=
                           parameters i ++
                           [{| id := pid; entity_type := etype;
                               is_list := lst; redact := red |}];
                         labels := labels i |}]> (intents σ);
             proto_obj := Some o |}).
Proof.
  intros Ho Hb. rewrite (add_parameter_owned σ o i) by done.
  destruct Ho as [Hp _]. unfold set_intent. by rewrite Hp.
Qed.

(** A second parameter "city" is appended after the first. *)
Lemma add_parameter_appends_witness :
  owns city_builder 1%positive Intent_with_city ∧
  Intent_bool Intent_with_city = true ∧
  add_parameter "city" "@sys.date" true false city_builder =
    Some (Returns 1%positive,
          {| lists := lists city_builder;
             intents :=
               <[1%positive :=
                   {| display_name := "book"; priority := default_priority;
                      is_fallback := false; description := "";
                      training_phrases := [];
                      parameters :=
                        [{| id := "city"; entity_type := "@sys.geo-city";
                            is_list := false; redact := false |};
                         {| id := "city"; entity_type := "@sys.date";
                            is_list := true; redact := false |}];
                      labels := ∅ |}]> (intents city_builder);
             proto_obj := Some 1%positive |}).
Proof.
  assert (Ho : owns city_builder 1%positive Intent_with_city) by done.
  assert (Hb : Intent_bool Intent_with_city = true) by done.
  split; [exact Ho|]. split; [exact Hb|].
  exact (add_parameter_appends city_builder 1%positive Intent_with_city
           "city" "@sys.date" true false Ho Hb).
Defined.

(** C8 does not hold of the code.  After [load_intent(types.Intent())]
    the builder owns a message, and [add_parameter] raises the
    [ValueError] of the check, which says that there is no [proto_obj],
    and appends nothing: the check asks for the truth value of the
    message, not for its presence. *)
Lemma add_parameter_all_default_raises :
  load_intent 1%positive (store_of Intent_default [] []) =
    Some (Returns 1%positive, all_default_builder) ∧
  owns all_default_builder 1%positive Intent_default ∧
  add_parameter "city" "@sys.geo-city" false false all_default_builder =
    Some (Raises (ValueError no_proto_obj_msg), all_default_builder).
Proof. by vm_compute. Qed.

(** ** A builder that was given no message *)

(** C2 does not hold of the code.  [__init__] does not assign [proto_obj], so on
    a builder on which neither [create_empty_intent] nor [load_intent]
    was called the check of each method stops at reading the attribute:
    what is raised is [AttributeError], not the [ValueError] of the
    check. *)
Theorem unassigned_proto_obj_raises_AttributeError
    (ls : gmap loc (list pyval)) (ms : gmap loc Intent)
    (phrase annotations : loc) (count : Z)
    (pid etype : string) (lst red : bool) (labels : labels_arg) :
  add_training_phrase phrase annotations count (unassigned_builder ls ms)
    = Some (Raises AttributeError, unassigned_builder ls ms) ∧
  add_parameter pid etype lst red (unassigned_builder ls ms)
    = Some (Raises AttributeError, unassigned_builder ls ms) ∧
  add_label labels (unassigned_builder ls ms)
    = Some (Raises AttributeError, unassigned_builder ls ms) ∧
  AttributeError ≠ ValueError no_proto_obj_msg.
Proof.
  assert (Hc : _check_intent_exist (unassigned_builder ls ms)
               = Some (Raises AttributeError, unassigned_builder ls ms))
    by by apply check_intent_exist_unset.
  unfold add_training_phrase, add_parameter, add_label.
  by rewrite !(checked_raises _ _ AttributeError Hc).
Qed.

Example new_builder_add_parameter :
  add_parameter "city" "@sys.geo-city" false false new_builder
  = Some (Raises AttributeError, new_builder).
Proof. reflexivity. Qed.

(** ** A builder that was given a false message *)

(** C9. The check of the builder asks for the truth value of the owned
    message, and [types.Intent()] is false.  Once [load_intent] has been
    given a false message, the builder owns it, and each of
    [add_training_phrase], [add_parameter] and [add_label] raises the
    [ValueError] of the check and changes nothing, so the same holds for
    every call after it. *)
Theorem load_false_intent_blocks_methods
    (σ : state) (obj : loc) (i : Intent) :
  intents σ !! obj = Some i → Intent_bool i = false →
  Intent_bool Intent_default = false ∧
  ∃ σ' : state,
    load_intent obj σ = Some (Returns obj, σ') ∧
    owns σ' obj i ∧
    ∀ (phrase annotations : loc) (count : Z) (pid etype : string)
      (lst red : bool) (labels : labels_arg),
      add_training_phrase phrase annotations count σ'
        = Some (Raises (ValueError no_proto_obj_msg), σ') ∧
      add_parameter pid etype lst red σ'
        = Some (Raises (ValueError no_proto_obj_msg), σ') ∧
      add_label labels σ'
        = Some (Raises (ValueError no_proto_obj_msg), σ').
Proof.
  intros Hi Hb. split; [done|].
  exists {| lists := lists σ; intents := intents σ; proto_obj := Some obj |}.
  split; [done|].
  assert (Ho : owns {| lists := lists σ; intents := intents σ;
                       proto_obj := Some obj |} obj i) by done.
  split; [done|]. intros.
  pose proof (check_intent_exist_false _ _ _ Ho Hb) as Hc.
  unfold add_training_phrase, add_parameter, add_label.
  by rewrite !(checked_raises _ _ _ Hc).
Qed.

Lemma load_false_intent_blocks_methods_witness :
  intents (store_of Intent_default [] []) !! 1%positive
    = Some Intent_default ∧
  Intent_bool Intent_default = false ∧
  ∃ σ' : state,
    load_intent 1%positive (store_of Intent_default [] [])
      = Some (Returns 1%positive, σ') ∧
    owns σ' 1%positive Intent_default ∧
    ∀ (phrase annotations : loc) (count : Z) (pid etype : string)
      (lst red : bool) (labels : labels_arg),
      add_training_phrase phrase annotations count σ'
        = Some (Raises (ValueError no_proto_obj_msg), σ') ∧
      add_parameter pid etype lst red σ'
        = Some (Raises (ValueError no_proto_obj_msg), σ') ∧
      add_label labels σ'
        = Some (Raises (ValueError no_proto_obj_msg), σ').
Proof.
  assert (Hi : intents (store_of Intent_default [] []) !! 1%positive
               = Some Intent_default) by done.
  assert (Hb : Intent_bool Intent_default = false) by done.
  split; [exact Hi|]. split; [exact Hb|].
  exact (proj2 (load_false_intent_blocks_methods
                  (store_of Intent_default [] []) 1%positive Intent_default
                  Hi Hb)).
Defined.

(** ** [add_label] *)

Lemma labels_of_list_lookup_from (l : list string) (acc : gmap string string)
    (k : string) :
  foldl (λ d label, <[label := label]> d) acc l !! k =
    if decide (k ∈ l) then Some k else acc !! k.
Proof.
  revert acc. induction l as [|x l IH]; intros acc; cbn [foldl].
  - rewrite decide_False; [done | apply not_elem_of_nil].
  - rewrite IH. destruct (decide (k ∈ l)) as [Hl|Hl].
    + rewrite decide_True; [done | by right].
    + destruct (decide (x = k)) as [->|Hx].
      * rewrite lookup_insert_eq. rewrite decide_True; [done | by left].
      * rewrite lookup_insert_ne by done.
        rewrite decide_False; [done|].
        intros [->|?]%elem_of_cons; done.
Qed.

Lemma labels_of_list_lookup (l : list string) (k : string) :
  labels_of_list l !! k = if decide (k ∈ l) then Some k else None.
Proof.
  unfold labels_of_list. rewrite labels_of_list_lookup_from.
  by rewrite lookup_empty.
Qed.

(** Writing back the message that is there changes nothing. *)
Lemma set_intent_same (σ : state) (o : loc) (i : Intent) :
  owns σ o i → set_intent σ o i = σ.
Proof.
  intros [Hp Hi]. unfold set_intent. rewrite insert_id by done.
  by destruct σ.
Qed.

Lemma add_label_owned (σ : state) (o : loc) (i : Intent) (labels : labels_arg) :
  owns σ o i → Intent_bool i = true →
  add_label labels σ =
    if negb (labels_arg_bool labels) then Some (Returns o, σ)
    else match labels with
         | LabelsList l =>
             Some (Returns o,
                   set_intent σ o (Intent_update_labels (labels_of_list l) i))
         | LabelsDict d =>
             Some (Returns o, set_intent σ o (Intent_update_labels d i))
         | LabelsOther _ => Some (Raises (ValueError labels_type_msg), σ)
         end.
Proof.
  intros Ho Hb. unfold add_label.
  rewrite (checked_returns _ σ o i) by done.
  destruct (negb (labels_arg_bool labels)).
  - destruct Ho as [Hp _]. run_M. by rewrite Hp.
  - destruct labels as [l|d|v]; unfold update_labels.
    + pose proof (write_back (Intent_update_labels (labels_of_list l))
                    σ o i Ho) as Hw.
      revert Hw. destruct Ho as [Hp Hi]. run_M. unfold set_intent.
      by repeat (first [rewrite Hp | rewrite Hi]; simpl).
    + pose proof (write_back (Intent_update_labels d) σ o i Ho) as Hw.
      revert Hw. destruct Ho as [Hp Hi]. run_M. unfold set_intent.
      by repeat (first [rewrite Hp | rewrite Hi]; simpl).
    + done.
Qed.

Lemma update_labels_lookup (d m : gmap string string) (k : string) :
  (d ∪ m) !! k = match d !! k with Some v => Some v | None => m !! k end.
Proof.
  rewrite lookup_union. destruct (d !! k), (m !! k); done.
Qed.

Lemma set_intent_update_labels (σ : state) (o : loc) (i : Intent)
    (d : gmap string string) :
  owns σ o i →
  set_intent σ o (Intent_update_labels d i) =
    {| lists := lists σ;
       intents :=
         <[o := {| display_name := display_name i; priority := priority i;
                   is_fallback := is_fallback i;
                   description := description i;
                   training_phrases := training_phrases i;
                   parameters := parameters i;
                   labels := d ∪ labels i |}]> (intents σ);
       proto_obj := Some o |}.
Proof. intros [Hp _]. unfold set_intent. by rewrite Hp. Qed.

(** X15. On a builder that owns a message passing the check,
    [add_label] (1) with a false argument changes nothing;
    (2) with a list of strings sets each of them as key with itself as
    value; (3) with a dict sets the keys of the dict to its values; in
    both cases the other labels stay and nothing but the labels changes;
    (4) with a true argument that is neither a list nor a dict raises
    the [ValueError] for the type of [labels] and changes nothing.
    Where it does not raise it returns the owned message. *)
Theorem add_label_merges (σ : state) (o : loc) (i : Intent) :
  owns σ o i → Intent_bool i = true →
  (∀ labels : labels_arg,
     labels_arg_bool labels = false →
     add_label labels σ = Some (Returns o, σ)) ∧
  (∀ l : list string, ∃ m : gmap string string,
     add_label (LabelsList l) σ =
       Some (Returns o,
             {| lists := lists σ;
                intents :=
                  <[o := {| display_name := display_name i;
                            priority := priority i;
                            is_fallback := is_fallback i;
                            description := description i;
                            training_phrases := training_phrases i;
                            parameters := parameters i;
                            labels := m |}]> (intents σ);
                proto_obj := Some o |}) ∧
     ∀ k : string,
       m !! k = if decide (k ∈ l) then Some k else labels i !! k) ∧
  (∀ d : gmap string string, ∃ m : gmap string string,
     add_label (LabelsDict d) σ =
       Some (Returns o,
             {| lists := lists σ;
                intents :=
                  <[o := {| display_name := display_name i;
                            priority := priority i;
                            is_fallback := is_fallback i;
                            description := description i;
                            training_phrases := training_phrases i;
                            parameters := parameters i;
                            labels := m |}]> (intents σ);
                proto_obj := Some o |}) ∧
     ∀ k : string,
       m !! k = match d !! k with Some v => Some v | None => labels i !! k end) ∧
  (∀ v : pyval,
     pyval_bool v = true →
     add_label (LabelsOther v) σ =
       Some (Raises (ValueError labels_type_msg), σ)).
Proof.
  intros Ho Hb.
  assert (Hnoop : ∀ d : gmap string string,
             d = ∅ → σ = set_intent σ o (Intent_update_labels d i)).
  { intros d ->. symmetry. rewrite <- (set_intent_same σ o i Ho) at 2.
    f_equal. unfold Intent_update_labels.
    rewrite (left_id_L ∅ (∪)). by destruct i. }
  repeat split.
  - intros labels Hf. rewrite (add_label_owned σ o i) by done.
    by rewrite Hf.
  - intros l. exists (labels_of_list l ∪ labels i). split.
    + rewrite (add_label_owned σ o i) by done.
      rewrite <- set_intent_update_labels by done.
      destruct l as [|x l]; simpl; [|done].
      f_equal. f_equal. by apply Hnoop.
    + intros k. rewrite update_labels_lookup, labels_of_list_lookup.
      by destruct (decide (k ∈ l)).
  - intros d. exists (d ∪ labels i). split.
    + rewrite (add_label_owned σ o i) by done.
      rewrite <- set_intent_update_labels by done.
      simpl. destruct (bool_decide (d = ∅)) eqn:Hd; simpl; [|done].
      apply bool_decide_eq_true in Hd.
      f_equal. f_equal. by apply Hnoop.
    + intros k. apply update_labels_lookup.
  - intros v Hv. rewrite (add_label_owned σ o i) by done.
    simpl. by rewrite Hv.
Qed.

(** [add_label({"a": "2"})] on that message: the same return value and
    state as the theorem gives, with the labels [{"a": "2"}]. *)
Lemma add_label_merges_witness :
  owns label_a_builder 1%positive Intent_label_a ∧
  Intent_bool Intent_label_a = true ∧
  ∃ m : gmap string string,
    add_label (LabelsDict {[ "a" := "2" ]}) label_a_builder =
      Some (Returns 1%positive,
            {| lists := lists label_a_builder;
               intents :=
                 <[1%positive :=
                     {| display_name := "book"; priority := default_priority;
                        is_fallback := false; description := "";
                        training_phrases := []; parameters := [];
                        labels := m |}]> (intents label_a_builder);
               proto_obj := Some 1%positive |}) ∧
    ∀ k : string,
      m !! k = match ({[ "a" := "2" ]} : gmap string string) !! k with
               | Some v => Some v
               | None => labels Intent_label_a !! k
               end.
Proof.
  assert (Ho : owns label_a_builder 1%positive Intent_label_a) by done.
  assert (Hb : Intent_bool Intent_label_a = true) by done.
  split; [exact Ho|]. split; [exact Hb|].
  exact (proj1 (proj2 (proj2
           (add_label_merges label_a_builder 1%positive Intent_label_a
              Ho Hb))) {[ "a" := "2" ]}).
Defined.

Example add_label_list_of_strings :
  fst <$> (add_label (LabelsList ["vip"; "urgent"]) ;;
           i ← read_intent 1%positive; mret (labels i))
            (loaded_store_of (Intent_named "book") [] [])
  = Some (Returns ({[ "vip" := "vip"; "urgent" := "urgent" ]}
                     : gmap string string)).
Proof. vm_compute. reflexivity. Qed.

Example add_label_dict_overwrites :
  fst <$> (add_label (LabelsDict {[ "a" := "1" ]}) ;;
           add_label (LabelsDict {[ "a" := "2" ]}) ;;
           i ← read_intent 1%positive; mret (labels i))
            (loaded_store_of (Intent_named "book") [] [])
  = Some (Returns ({[ "a" := "2" ]} : gmap string string)).
Proof. vm_compute. reflexivity. Qed.

(** C6 does not hold of the code.  The builder owns the message
    [types.Intent()], and [add_label] with a dict raises the [ValueError]
    of the check, which says that there is no [proto_obj], instead of
    merging the dict into the labels. *)
Lemma add_label_all_default_raises :
  owns all_default_builder 1%positive Intent_default ∧
  add_label (LabelsDict {[ "a" := "1" ]}) all_default_builder =
    Some (Raises (ValueError no_proto_obj_msg), all_default_builder).
Proof. by vm_compute. Qed.

(** ** [add_training_phrase] *)

Lemma pyval_str_PyStr (l : list string) : pyval_str <$> (PyStr <$> l) = l.
Proof.
  induction l as [|s l IH]; [done|].
  rewrite !fmap_cons. cbn [pyval_str]. by rewrite IH.
Qed.

Lemma forallb_isinstance_str_PyStr (l : list string) :
  forallb isinstance_str (PyStr <$> l) = true.
Proof. induction l as [|s l IH]; simpl; done. Qed.

(** On strings the loop builds one part per pair, in order, behind the
    parts it started from, and touches no object. *)
Lemma build_parts_strings (ph an : list pyval) (acc : list Part) (σ : state) :
  forallb isinstance_str ph = true → forallb isinstance_str an = true →
  build_parts (zip ph an) acc σ =
    Some (Returns (acc ++ zip_with Build_Part (pyval_str <$> ph)
                                             (pyval_str <$> an)), σ).
Proof.
  revert an acc. induction ph as [|p ph IH]; intros an acc Hp Ha.
  - simpl. by rewrite (right_id_L [] (++)).
  - destruct an as [|a an]; [simpl; by rewrite (right_id_L [] (++))|].
    simpl in Hp, Ha.
    apply andb_prop in Hp as [Hp1 Hp2]. apply andb_prop in Ha as [Ha1 Ha2].
    destruct p as [| | |t]; try done. destruct a as [| | |q]; try done.
    cbn [zip zip_with build_parts new_Part]. unfold mbind, M_bind, mret, M_ret.
    fold (@mbind M _). rewrite IH by done. simpl.
    by rewrite <- (assoc_L (++)).
Qed.

Lemma forallb_isinstance_str_pad (an : list pyval) (n : nat) :
  forallb isinstance_str an = true →
  forallb isinstance_str (an ++ replicate n (PyStr "")) = true.
Proof.
  intros Ha. rewrite forallb_app, Ha. simpl.
  induction n as [|n IH]; simpl; done.
Qed.

(** What [add_training_phrase] does on a builder that passes the check,
    given the contents of the two lists. *)
Lemma add_training_phrase_owned (σ : state) (o : loc) (i : Intent)
    (phrase annotations : loc) (ph an : list pyval) (count : Z) :
  owns σ o i → Intent_bool i = true →
  lists σ !! phrase = Some ph → lists σ !! annotations = Some an →
  add_training_phrase phrase annotations count σ =
    if negb (forallb isinstance_str ph && forallb isinstance_str an)
    then Some (Raises (ValueError only_strings_msg), σ)
    else if Nat.ltb (length ph) (length an)
    then Some (Raises (IndexError annotations_too_long_msg), σ)
    else
      let an' := an ++ replicate (length ph - length an) (PyStr "") in
      if in_int32 count
      then Some (Returns o,
                 set_intent (set_list σ annotations an') o
                   (Intent_append_training_phrase
                      {| parts := zip_with Build_Part (pyval_str <$> ph)
                                                      (pyval_str <$> an');
                         repeat_count := count |} i))
      else Some (Raises (ValueError (out_of_range_msg count)),
                 set_list σ annotations an').
Proof.
  intros Ho Hb Hph Han. unfold add_training_phrase.
  rewrite (checked_returns _ σ o i) by done.
  rewrite (bind_returns _ _ σ σ ph) by (unfold read_list; by rewrite Hph).
  rewrite (bind_returns _ _ σ σ an) by (unfold read_list; by rewrite Han).
  destruct (forallb isinstance_str ph && forallb isinstance_str an) eqn:Hstr;
    simpl; [|done].
  apply andb_prop in Hstr as [Hsp Hsa].
  destruct (Nat.ltb (length ph) (length an)) eqn:Hlen; [done|].
  apply Nat.ltb_ge in Hlen.
  set (an' := an ++ replicate (length ph - length an) (PyStr "")).
  set (σ1 := set_list σ annotations an').
  rewrite (bind_returns _ _ σ σ1 tt)
    by (unfold list_extend; by rewrite Han).
  assert (Hph1 : lists σ1 !! phrase = Some ph).
  { unfold σ1, set_list. simpl.
    destruct (decide (annotations = phrase)) as [->|Hne].
    - rewrite lookup_insert_eq. f_equal. unfold an'.
      assert (ph = an) as -> by congruence.
      rewrite Nat.sub_diag. simpl. by rewrite (right_id_L [] (++)).
    - by rewrite lookup_insert_ne. }
  assert (Han1 : lists σ1 !! annotations = Some an').
  { unfold σ1, set_list. simpl. by rewrite lookup_insert_eq. }
  rewrite (bind_returns _ _ σ1 σ1 ph) by (unfold read_list; by rewrite Hph1).
  rewrite (bind_returns _ _ σ1 σ1 an') by (unfold read_list; by rewrite Han1).
  rewrite (bind_returns _ _ σ1 σ1
             (zip_with Build_Part (pyval_str <$> ph) (pyval_str <$> an'))).
  - unfold new_TrainingPhrase. destruct (in_int32 count).
    + rewrite (bind_returns _ _ σ1 σ1
                 {| parts := zip_with Build_Part (pyval_str <$> ph)
                                                 (pyval_str <$> an');
                    repeat_count := count |}) by done.
      apply (write_back (Intent_append_training_phrase _)).
      destruct Ho as [Hp Hi]. by split.
    + by apply bind_raises.
  - rewrite build_parts_strings; [done | done |].
    by apply forallb_isinstance_str_pad.
Qed.

Lemma bind_returns_inv {A B : Type} (m : M A) (f : A → M B)
    (σ σ' : state) (b : B) :
  (m ≫= f) σ = Some (Returns b, σ') →
  ∃ (a : A) (σ1 : state), m σ = Some (Returns a, σ1) ∧
                          f a σ1 = Some (Returns b, σ').
Proof.
  unfold mbind, M_bind. destruct (m σ) as [[[a|e] σ1]|]; [|done|done].
  intros H. by exists a, σ1.
Qed.

(** The parts built from [ph] and the padded [an], read by index. *)
Lemma padded_parts_lookup (ph an : list string) (k : nat) (t : string) :
  (length an ≤ length ph)%nat →
  ph !! k = Some t →
  zip_with Build_Part ph (an ++ replicate (length ph - length an) "") !! k
  = Some {| text := t; parameter_id := default "" (an !! k) |}.
Proof.
  intros Hlen Hk. rewrite lookup_zip_with, Hk. simpl.
  apply lookup_lt_Some in Hk as Hlt.
  destruct (an !! k) as [a|] eqn:Ha.
  - by rewrite (lookup_app_l_Some _ _ _ _ Ha).
  - apply lookup_ge_None in Ha.
    rewrite lookup_app_r by done.
    rewrite lookup_replicate_2 by lia. done.
Qed.

(** On lists of strings with no more annotations than phrase elements
    and a repeat count within range, the state that
    [add_training_phrase] returns in. *)
Lemma add_training_phrase_strings (σ : state) (o : loc) (i : Intent)
    (phrase annotations : loc) (ph an : list string) (count : Z) :
  owns σ o i → Intent_bool i = true →
  lists σ !! phrase = Some (PyStr <$> ph) →
  lists σ !! annotations = Some (PyStr <$> an) →
  (length an ≤ length ph)%nat →
  -2147483648 ≤ count ≤ 2147483647 →
  add_training_phrase phrase annotations count σ =
    Some (Returns o,
          set_intent
            (set_list σ annotations
               (PyStr <$> (an ++ replicate (length ph - length an) "")))
            o
            (Intent_append_training_phrase
               {| parts :=
                    zip_with Build_Part ph
                      (an ++ replicate (length ph - length an) "");
                  repeat_count := count |} i)).
Proof.
  intros Ho Hb Hph Han Hlen Hcount.
  rewrite (add_training_phrase_owned σ o i phrase annotations
             (PyStr <$> ph) (PyStr <$> an)) by done.
  rewrite !forallb_isinstance_str_PyStr. simpl.
  rewrite !length_fmap.
  rewrite (proj2 (Nat.ltb_ge _ _)) by done.
  rewrite (proj2 (in_int32_bounds count)) by done.
  assert (Hpad : (PyStr <$> an) ++ replicate (length ph - length an) (PyStr "")
                 = PyStr <$> (an ++ replicate (length ph - length an) "")).
  { by rewrite fmap_app, fmap_replicate. }
  simpl. by rewrite Hpad, !pyval_str_PyStr.
Qed.

(** X14. On a builder that owns a message passing the check, for lists
    of strings [ph] and [an] with [an] no longer than [ph] and a repeat
    count within the 32-bit range, [add_training_phrase] returns the
    owned message, to whose training phrases one has been appended
    behind the earlier ones; it has the given repeat count and one part
    per element of [ph], in order, the [k]-th with the text [ph[k]] and
    the parameter id [an[k]], or the empty string where [an] has no such
    element. *)
Theorem add_training_phrase_appends (σ : state) (o : loc) (i : Intent)
    (phrase annotations : loc) (ph an : list string) (count : Z) :
  owns σ o i → Intent_bool i = true →
  lists σ !! phrase = Some (PyStr <$> ph) →
  lists σ !! annotations = Some (PyStr <$> an) →
  (length an ≤ length ph)%nat →
  -2147483648 ≤ count ≤ 2147483647 →
  ∃ parts_list : list Part,
    add_training_phrase phrase annotations count σ =
      Some (Returns o,
            {| lists :=
                 <[annotations :=
                     PyStr <$> (an ++ replicate (length ph - length an) "")]>
                   (lists σ);
               intents :=
                 <[o := {| display_name := display_name i;
                           priority := priority i;
                           is_fallback := is_fallback i;
                           description := description i;
                           training_phrases :=
                             training_phrases i ++
                             [{| parts := parts_list;
                                 repeat_count := count |}];
                           parameters := parameters i;
                           labels := labels i |}]> (intents σ);
               proto_obj := Some o |}) ∧
    length parts_list = length ph ∧
    ∀ (k : nat) (t : string),
      ph !! k = Some t →
      parts_list !! k
      = Some {| text := t; parameter_id := default "" (an !! k) |}.
Proof.
  intros Ho Hb Hph Han Hlen Hcount.
  set (padded := an ++ replicate (length ph - length an) "").
  exists (zip_with Build_Part ph padded). split; [|split].
  - rewrite (add_training_phrase_strings σ o i phrase annotations ph an)
      by done.
    destruct Ho as [Hp Hi]. unfold set_intent, set_list. simpl.
    by rewrite Hp.
  - rewrite length_zip_with_l_eq; [done|].
    unfold padded. rewrite length_app, length_replicate. lia.
  - intros k t Hk. by apply padded_parts_lookup.
Qed.

Lemma add_training_phrase_appends_witness :
  owns abc_builder 1%positive (Intent_named "book") ∧
  Intent_bool (Intent_named "book") = true ∧
  lists abc_builder !! 2%positive = Some (PyStr <$> ["a"; "b"; "c"]) ∧
  lists abc_builder !! 3%positive = Some (PyStr <$> ["x"]) ∧
  (length ["x"] ≤ length ["a"; "b"; "c"])%nat ∧
  -2147483648 ≤ default_repeat_count ≤ 2147483647 ∧
  ∃ parts_list : list Part,
    add_training_phrase 2%positive 3%positive default_repeat_count abc_builder
    = Some (Returns 1%positive,
            {| lists :=
                 <[3%positive := PyStr <$> ["x"; ""; ""]]> (lists abc_builder);
               intents :=
                 <[1%positive :=
                     {| display_name := "book"; priority := default_priority;
                        is_fallback := false; description := "";
                        training_phrases :=
                          [{| parts := parts_list; repeat_count := 1 |}];
                        parameters := []; labels := ∅ |}]>
                   (intents abc_builder);
               proto_obj := Some 1%positive |}) ∧
    length parts_list = 3%nat ∧
    ∀ (k : nat) (t : string),
      ["a"; "b"; "c"] !! k = Some t →
      parts_list !! k
      = Some {| text := t; parameter_id := default "" (["x"] !! k) |}.
Proof.
  assert (Ho : owns abc_builder 1%positive (Intent_named "book")) by done.
  assert (Hb : Intent_bool (Intent_named "book") = true) by done.
  assert (Hph : lists abc_builder !! 2%positive
                = Some (PyStr <$> ["a"; "b"; "c"])) by done.
  assert (Han : lists abc_builder !! 3%positive = Some (PyStr <$> ["x"]))
    by done.
  assert (Hlen : (length ["x"] ≤ length ["a"; "b"; "c"])%nat)
    by (simpl; lia).
  assert (Hcount : -2147483648 ≤ default_repeat_count ≤ 2147483647)
    by (unfold default_repeat_count; lia).
  split; [exact Ho|]. split; [exact Hb|]. split; [exact Hph|].
  split; [exact Han|]. split; [exact Hlen|]. split; [exact Hcount|].
  exact (add_training_phrase_appends abc_builder 1%positive
           (Intent_named "book") 2%positive 3%positive
           ["a"; "b"; "c"] ["x"] default_repeat_count
           Ho Hb Hph Han Hlen Hcount).
Defined.

Example add_training_phrase_abc_x :
  fst <$> (add_training_phrase 2%positive 3%positive default_repeat_count ;;
           i ← read_intent 1%positive; mret (training_phrases i)) abc_builder
  = Some (Returns [{| parts := [{| text := "a"; parameter_id := "x" |};
                                {| text := "b"; parameter_id := "" |};
                                {| text := "c"; parameter_id := "" |}];
                      repeat_count := 1 |}]).
Proof. vm_compute. reflexivity. Qed.

(** C1 does not hold of the code.  After [load_intent(types.Intent())]
    the builder owns a message, and [add_training_phrase] on the lists
    ["a", "b", "c"] and ["x"] raises the [ValueError] of the check, which
    says that there is no [proto_obj], and appends nothing: the check
    asks for the truth value of the message, not for its presence. *)
Lemma add_training_phrase_all_default_raises :
  owns abc_all_default_builder 1%positive Intent_default ∧
  add_training_phrase 2%positive 3%positive default_repeat_count
    abc_all_default_builder
  = Some (Raises (ValueError no_proto_obj_msg), abc_all_default_builder).
Proof. by vm_compute. Qed.

(** C4 does not hold of the code.  The builder owns the message
    [types.Intent()] and the annotations ["x", "y"] are longer than the
    phrase ["a"]; what is raised is the [ValueError] of the check, which
    says that there is no [proto_obj], not the [IndexError] for the
    length. *)
Lemma add_training_phrase_too_long_all_default :
  owns a_xy_all_default_builder 1%positive Intent_default ∧
  (length [PyStr "a"] < length [PyStr "x"; PyStr "y"])%nat ∧
  add_training_phrase 2%positive 3%positive default_repeat_count
    a_xy_all_default_builder
  = Some (Raises (ValueError no_proto_obj_msg), a_xy_all_default_builder) ∧
  ValueError no_proto_obj_msg ≠ IndexError annotations_too_long_msg.
Proof. repeat split; [simpl; lia | done]. Qed.

(** C7. When a call of [add_training_phrase] with fewer annotations than
    elements of the phrase returns, the list object given for
    [annotations] holds what it held before followed by empty strings,
    as many as make it as long as the phrase; every other list of the
    store, the one given for [phrase] among them, holds what it held
    before. *)
Theorem add_training_phrase_pads_annotations
    (σ σ' : state) (phrase annotations : loc) (ph an : list pyval)
    (count : Z) (r : loc) :
  lists σ !! phrase = Some ph →
  lists σ !! annotations = Some an →
  (length an < length ph)%nat →
  add_training_phrase phrase annotations count σ = Some (Returns r, σ') →
  lists σ' =
    <[annotations := an ++ replicate (length ph - length an) (PyStr "")]>
      (lists σ) ∧
  length (an ++ replicate (length ph - length an) (PyStr "")) = length ph ∧
  lists σ' !! phrase = Some ph.
Proof.
  intros Hph Han Hlen Hcall.
  pose proof Hcall as Hc. unfold add_training_phrase in Hc.
  apply bind_returns_inv in Hc as ([] & σ1 & Hc & _).
  apply check_intent_exist_inv in Hc as [-> Hown].
  destruct (Hown eq_refl) as (o & i & Ho & Hb).
  rewrite (add_training_phrase_owned σ o i phrase annotations ph an)
    in Hcall by done.
  destruct (negb _); [done|].
  destruct (Nat.ltb _ _); [done|].
  simpl in Hcall. destruct (in_int32 count); [|done].
  injection Hcall as _ <-. simpl.
  split; [done|]. split.
  - rewrite length_app, length_replicate. lia.
  - rewrite lookup_insert_ne; [done|].
    intros ->. rewrite Hph in Han. injection Han as ->. lia.
Qed.

Lemma add_training_phrase_pads_annotations_witness :
  lists abc_builder !! 2%positive
    = Some [PyStr "a"; PyStr "b"; PyStr "c"] ∧
  lists abc_builder !! 3%positive = Some [PyStr "x"] ∧
  (length [PyStr "x"] < length [PyStr "a"; PyStr "b"; PyStr "c"])%nat ∧
  add_training_phrase 2%positive 3%positive default_repeat_count abc_builder
    = Some (Returns 1%positive, abc_builder_after) ∧
  lists abc_builder_after
    = <[3%positive := [PyStr "x"; PyStr ""; PyStr ""]]> (lists abc_builder) ∧
  length [PyStr "x"; PyStr ""; PyStr ""] = 3%nat ∧
  lists abc_builder_after !! 2%positive
    = Some [PyStr "a"; PyStr "b"; PyStr "c"].
Proof.
  assert (Hph : lists abc_builder !! 2%positive
                = Some [PyStr "a"; PyStr "b"; PyStr "c"]) by done.
  assert (Han : lists abc_builder !! 3%positive = Some [PyStr "x"]) by done.
  assert (Hlen : (length [PyStr "x"]
                  < length [PyStr "a"; PyStr "b"; PyStr "c"])%nat)
    by (simpl; lia).
  assert (Hcall :
    add_training_phrase 2%positive 3%positive default_repeat_count abc_builder
    = Some (Returns 1%positive, abc_builder_after))
    by (vm_compute; reflexivity).
  split; [exact Hph|]. split; [exact Han|]. split; [exact Hlen|].
  split; [exact Hcall|].
  exact (add_training_phrase_pads_annotations abc_builder abc_builder_after
           2%positive 3%positive _ _ default_repeat_count 1%positive
           Hph Han Hlen Hcall).
Defined.

(** ** [_parameter_checking] *)

Lemma parts_fold_elem_of (ps : list Part) (acc : gset string) (x : string) :
  x ∈ foldl (λ s part, {[parameter_id part]} ∪ s) acc ps ↔
  x ∈ acc ∨ ∃ part : Part, part ∈ ps ∧ parameter_id part = x.
Proof.
  revert acc. induction ps as [|p ps IH]; intros acc; cbn [foldl].
  - split; [by left|]. intros [?|(part & Hin & _)]; [done|].
    by apply elem_of_nil in Hin.
  - rewrite IH, elem_of_union, elem_of_singleton. split.
    + intros [[->|?]|(part & Hin & Hx)].
      * right. exists p. split; [by left | done].
      * by left.
      * right. exists part. split; [by right | done].
    + intros [?|(part & Hin & Hx)]; [left; by right|].
      apply elem_of_cons in Hin as [->|Hin].
      * left. by left.
      * right. by exists part.
Qed.

Lemma training_phrases_fold_elem_of (tps : list TrainingPhrase)
    (acc : gset string) (x : string) :
  x ∈ foldl (λ s tp, foldl (λ s part, {[parameter_id part]} ∪ s) s (parts tp))
        acc tps ↔
  x ∈ acc ∨ ∃ (tp : TrainingPhrase) (part : Part),
              tp ∈ tps ∧ part ∈ parts tp ∧ parameter_id part = x.
Proof.
  revert acc. induction tps as [|t tps IH]; intros acc; cbn [foldl].
  - split; [by left|]. intros [?|(tp & part & Hin & _)]; [done|].
    by apply elem_of_nil in Hin.
  - rewrite IH, parts_fold_elem_of. split.
    + intros [[?|(part & Hin & Hx)]|(tp & part & Hin & Hp & Hx)].
      * by left.
      * right. exists t, part. split; [by left | done].
      * right. exists tp, part. split; [by right | done].
    + intros [?|(tp & part & Hin & Hp & Hx)]; [left; by left|].
      apply elem_of_cons in Hin as [->|Hin].
      * left. right. by exists part.
      * right. by exists tp, part.
Qed.

(** Removing the empty string, with the [KeyError] caught: the set
    without it, in either case. *)
Lemma remove_empty_string (s : gset string) (σ : state) :
  try_except (set_remove "" s)
    (λ e, match e with KeyError _ => mret s | _ => raise e end) σ
  = Some (Returns (s ∖ {[""]}), σ).
Proof.
  unfold try_except, set_remove.
  destruct (decide ("" ∈ s)) as [Hin|Hin]; simpl; [done|].
  unfold mret, M_ret. do 3 f_equal.
  symmetry. apply difference_disjoint_L, disjoint_singleton_r, Hin.
Qed.

(** The last loop stops at the first id it meets that is not declared. *)
Lemma check_loop (declared_set : gset string) (xs : list string) (σ : state) :
  for_each xs (λ tp_param,
    if negb (bool_decide (tp_param ∈ declared_set))
    then raise (Exception (parameter_missing_msg tp_param))
    else mret tt) σ
  = match find (λ x, negb (bool_decide (x ∈ declared_set))) xs with
    | Some x => Some (Raises (Exception (parameter_missing_msg x)), σ)
    | None => Some (Returns tt, σ)
    end.
Proof.
  induction xs as [|x xs IH]; [done|].
  cbn [for_each find]. unfold mbind, M_bind.
  destruct (negb (bool_decide (x ∈ declared_set))); [done|].
  simpl. apply IH.
Qed.

Lemma parameter_checking_owned (set_iter : gset string → list string)
    (σ : state) (o : loc) (i : Intent) :
  owns σ o i →
  ∃ (refs decls : gset string),
    (∀ x, x ∈ refs ↔ referenced i x) ∧
    (∀ x, x ∈ decls ↔ declared i x) ∧
    _parameter_checking set_iter σ =
      match find (λ x, negb (bool_decide (x ∈ decls))) (set_iter refs) with
      | Some x => Some (Raises (Exception (parameter_missing_msg x)), σ)
      | None => Some (Returns tt, σ)
      end.
Proof.
  intros [Hp Hi].
  set (all := foldl (λ s tp, foldl (λ s part, {[parameter_id part]} ∪ s) s
                                   (parts tp))
                    (∅ : gset string) (training_phrases i)).
  exists (all ∖ {[""]}), (list_to_set (id <$> parameters i)).
  split; [|split].
  - intros x. rewrite elem_of_difference, elem_of_singleton.
    unfold all. rewrite training_phrases_fold_elem_of. unfold referenced.
    split.
    + intros [[Hx|Hx] Hne]; [by apply not_elem_of_empty in Hx | done].
    + intros [Hne Hx]. split; [by right | done].
  - intros x. rewrite elem_of_list_to_set, list_elem_of_fmap. unfold declared.
    split; intros (p & H1 & H2); by exists p.
  - unfold _parameter_checking.
    rewrite (bind_returns _ _ σ σ o) by (unfold get_proto_obj; by rewrite Hp).
    rewrite (bind_returns _ _ σ σ i) by (unfold read_intent; by rewrite Hi).
    fold all.
    rewrite (bind_returns _ _ σ σ (all ∖ {[""]}))
      by apply remove_empty_string.
    apply check_loop.
Qed.

Lemma string_length_app (x s : string) :
  String.length (x +:+ s) = (String.length x + String.length s)%nat.
Proof. induction x as [|c x IH]; simpl; [done | by rewrite IH]. Qed.

Lemma string_app_inj_suffix (s x y : string) : x +:+ s = y +:+ s → x = y.
Proof.
  revert y. induction x as [|c x IH]; intros [|d y] H.
  - done.
  - apply (f_equal String.length) in H.
    rewrite !string_length_app in H. simpl in H. lia.
  - apply (f_equal String.length) in H.
    rewrite !string_length_app in H. simpl in H. lia.
  - change (String c (x +:+ s) = String d (y +:+ s)) in H.
    injection H as -> H. f_equal. by apply IH.
Qed.

(** The message of the exception is the text of the source around the
    id, and it tells the id. *)
Lemma parameter_missing_msg_text (x : string) :
  parameter_missing_msg x =
    "parameter_id " +:+ x +:+
    " does not exist in parameters.Please add it using add_parameter method to continue.".
Proof. reflexivity. Qed.

Lemma string_app_inj_prefix (p x y : string) : p +:+ x = p +:+ y → x = y.
Proof.
  induction p as [|c p IH]; intros H; [done|].
  change (String c (p +:+ x) = String c (p +:+ y)) in H.
  injection H as H. by apply IH.
Qed.

Lemma parameter_missing_msg_inj (x y : string) :
  parameter_missing_msg x = parameter_missing_msg y → x = y.
Proof.
  unfold parameter_missing_msg. intros H.
  apply string_app_inj_prefix in H. by apply string_app_inj_suffix in H.
Qed.

(** C3. For a builder that owns a message, and whatever the order in
    which the loop visits the set, [_parameter_checking] raises exactly
    when some id that a part refers to, the empty string apart, is not
    the id of a declared parameter; what it raises is the exception whose
    message is the text of the source with such an id in it, and the
    message tells which id it is, since different ids give different
    messages; and it returns exactly when every such id is declared.  It
    changes nothing in either case. *)
Theorem parameter_checking_dangling (set_iter : gset string → list string)
    (σ : state) (o : loc) (i : Intent) :
  (∀ X : gset string, set_iter X ≡ₚ elements X) →
  owns σ o i →
  ((∃ x : string, referenced i x ∧ ¬ declared i x) ↔
   (∃ e : exn, _parameter_checking set_iter σ = Some (Raises e, σ))) ∧
  (∀ e : exn,
     _parameter_checking set_iter σ = Some (Raises e, σ) →
     ∃ x : string,
       e = Exception
             ("parameter_id " +:+ x +:+
              " does not exist in parameters.Please add it using add_parameter method to continue.") ∧
       referenced i x ∧ ¬ declared i x ∧
       ∀ y : string,
         e = Exception
               ("parameter_id " +:+ y +:+
                " does not exist in parameters.Please add it using add_parameter method to continue.") →
         y = x) ∧
  ((∀ x : string, referenced i x → declared i x) ↔
   _parameter_checking set_iter σ = Some (Returns tt, σ)).
Proof.
  intros Hperm Ho.
  destruct (parameter_checking_owned set_iter σ o i Ho)
    as (refs & decls & Hrefs & Hdecls & ->).
  assert (Hiter : ∀ x, In x (set_iter refs) ↔ referenced i x).
  { intros x. rewrite <- list_elem_of_In, Hperm, elem_of_elements.
    apply Hrefs. }
  destruct (find _ (set_iter refs)) as [x|] eqn:Hfind.
  - apply find_some in Hfind as [Hin Hneg].
    apply Hiter in Hin. apply negb_true_iff, bool_decide_eq_false in Hneg.
    rewrite Hdecls in Hneg.
    split; [|split].
    + split; [by eexists | by exists x].
    + intros e [= <-]. exists x.
      split; [apply f_equal, parameter_missing_msg_text|].
      split; [done|]. split; [done|].
      intros y Hy. symmetry. apply parameter_missing_msg_inj.
      apply (f_equal (λ e, match e with Exception m => m | _ => "" end))
        in Hy.
      exact Hy.
    + split; [|done]. intros Hall. destruct Hneg. by apply Hall.
  - assert (Hall : ∀ x, referenced i x → declared i x).
    { intros x Hx. apply Hiter in Hx.
      pose proof (find_none _ _ Hfind x Hx) as Hneg. simpl in Hneg.
      apply negb_false_iff, bool_decide_eq_true in Hneg.
      by apply Hdecls. }
    split; [|split].
    + split; [|by intros [e ?]].
      intros (x & Hx & Hnd). destruct Hnd. by apply Hall.
    + by intros e.
    + done.
Qed.

Lemma parameter_checking_dangling_witness :
  (∀ X : gset string, elements X ≡ₚ elements X) ∧
  owns city_part_builder 1%positive Intent_city_part ∧
  ((∃ x : string,
      referenced Intent_city_part x ∧ ¬ declared Intent_city_part x) ↔
   (∃ e : exn, _parameter_checking elements city_part_builder
               = Some (Raises e, city_part_builder))) ∧
  (∀ e : exn,
     _parameter_checking elements city_part_builder
       = Some (Raises e, city_part_builder) →
     ∃ x : string,
       e = Exception
             ("parameter_id " +:+ x +:+
              " does not exist in parameters.Please add it using add_parameter method to continue.") ∧
       referenced Intent_city_part x ∧
       ¬ declared Intent_city_part x ∧
       ∀ y : string,
         e = Exception
               ("parameter_id " +:+ y +:+
                " does not exist in parameters.Please add it using add_parameter method to continue.") →
         y = x) ∧
  ((∀ x : string,
      referenced Intent_city_part x → declared Intent_city_part x) ↔
   _parameter_checking elements city_part_builder
     = Some (Returns tt, city_part_builder)).
Proof.
  assert (Hperm : ∀ X : gset string, elements X ≡ₚ elements X)
    by (intros X; reflexivity).
  assert (Ho : owns city_part_builder 1%positive Intent_city_part) by done.
  split; [exact Hperm|]. split; [exact Ho|].
  exact (parameter_checking_dangling elements city_part_builder 1%positive
           Intent_city_part Hperm Ho).
Defined.

Example parameter_checking_city_undeclared :
  _parameter_checking elements city_part_builder
  = Some (Raises
            (Exception
               "parameter_id city does not exist in parameters.Please add it using add_parameter method to continue."),
          city_part_builder).
Proof. vm_compute. reflexivity. Qed.

Example parameter_checking_city_declared :
  fst <$> (add_parameter "city" "@sys.geo-city" false false ;;
           _parameter_checking elements) city_part_builder
  = Some (Returns tt).
Proof. vm_compute. reflexivity. Qed.

(** ** [build_intent] *)

Lemma Dict_set_set (d : list (string * pyobj)) (key : string) (v w : pyobj) :
  Dict.set (Dict.set d key v) key w = Dict.set d key w.
Proof.
  induction d as [|[k u] d IH]; simpl.
  - by rewrite String.eqb_refl.
  - destruct (String.eqb k key) eqn:Hk; simpl; rewrite Hk; [done|].
    by rewrite IH.
Qed.

(** Over dicts that all have the key, the comprehension ends with the
    value of the last one under "text", whatever it started from. *)
Lemma build_intent_tps_dicts (ds : list (list (string * pyobj)))
    (tps d : list (string * pyobj)) (t : pyobj) :
  Forall (λ d, is_Some (Dict.get d "text")) ds →
  last ds = Some d → Dict.get d "text" = Some t →
  build_intent_tps tps (PyDict <$> ds) = Returns (Dict.set tps "text" t).
Proof.
  revert tps. induction ds as [|d0 ds IH]; intros tps Hall Hlast Ht; [done|].
  apply Forall_cons in Hall as [[v Hv] Hall].
  rewrite fmap_cons. cbn [build_intent_tps getitem]. rewrite Hv.
  unfold mbind, outcome_bind.
  destruct ds as [|d1 ds].
  - simpl in Hlast. injection Hlast as ->. simpl. congruence.
  - rewrite (IH (Dict.set tps "text" v)); [|done|done|done].
    by rewrite Dict_set_set.
Qed.

(** C10, with the failure on strings stated for lists that are not
    empty.  For dicts that all have the key "text", the last of
    them having the value [t] there, [build_intent] returns the dict with
    [display_name] and, under "training_phrases", the dict with the one
    key "text" and the value [t]: nothing of the dicts before the last is
    in the result.  For a list of strings with at least one element it
    raises [TypeError]. *)
Theorem build_intent_keeps_last_text (display_name : pyobj) :
  (∀ (ds : list (list (string * pyobj))) (d : list (string * pyobj))
     (t : pyobj),
     Forall (λ d, is_Some (Dict.get d "text")) ds →
     last ds = Some d → Dict.get d "text" = Some t →
     build_intent display_name (PyDict <$> ds) =
       Returns (PyDict [("display_name", display_name);
                        ("training_phrases", PyDict [("text", t)])])) ∧
  (∀ ss : list string,
     ss ≠ [] →
     build_intent display_name ((λ s, PyVal (PyStr s)) <$> ss)
       = Raises TypeError).
Proof.
  split.
  - intros ds d t Hall Hlast Ht. unfold build_intent.
    by rewrite (build_intent_tps_dicts ds [] d t).
  - intros [|s ss] Hne; [done|]. reflexivity.
Qed.

Lemma build_intent_keeps_last_text_witness :
  Forall (λ d, is_Some (Dict.get d "text"))
    [[("text", PyVal (PyStr "hi"))];
     [("lang", PyVal (PyStr "en")); ("text", PyVal (PyStr "bye"))]] ∧
  build_intent (PyVal (PyStr "greet"))
    [PyDict [("text", PyVal (PyStr "hi"))];
     PyDict [("lang", PyVal (PyStr "en")); ("text", PyVal (PyStr "bye"))]]
  = Returns (PyDict [("display_name", PyVal (PyStr "greet"));
                     ("training_phrases",
                      PyDict [("text", PyVal (PyStr "bye"))])]) ∧
  ["hi"; "bye"] ≠ [] ∧
  build_intent (PyVal (PyStr "greet"))
    [PyVal (PyStr "hi"); PyVal (PyStr "bye")]
  = Raises TypeError.
Proof.
  assert (Hall : Forall (λ d, is_Some (Dict.get d "text"))
            [[("text", PyVal (PyStr "hi"))];
             [("lang", PyVal (PyStr "en")); ("text", PyVal (PyStr "bye"))]]).
  { repeat constructor; by eexists. }
  assert (Hne : ["hi"; "bye"] ≠ []) by done.
  split; [exact Hall|]. split; [|split; [exact Hne|]].
  - exact (proj1 (build_intent_keeps_last_text (PyVal (PyStr "greet")))
             _ _ (PyVal (PyStr "bye")) Hall eq_refl eq_refl).
  - exact (proj2 (build_intent_keeps_last_text (PyVal (PyStr "greet")))
             ["hi"; "bye"] Hne).
Defined.

(** On the empty list, which is a list of strings as well,
    [build_intent] returns. *)
Lemma build_intent_empty_list_returns :
  build_intent (PyVal (PyStr "greet")) ((λ s, PyVal (PyStr s)) <$> [])
  = Returns (PyDict [("display_name", PyVal (PyStr "greet"));
                     ("training_phrases", PyDict [])]).
Proof. reflexivity. Qed.


(** * Further properties *)

(** ** [build_intent]: which rows it accepts *)

Lemma getitem_has_text (row : pyobj) :
  has_text row → ∃ t : pyobj, getitem row "text" = Returns t.
Proof. intros (d & t & -> & Ht). exists t. simpl. by rewrite Ht. Qed.

Lemma getitem_not_has_text (row : pyobj) :
  ¬ has_text row → getitem row "text" = Raises (text_error row).
Proof.
  intros Hno. destruct row as [v|d]; [done|]. simpl.
  destruct (Dict.get d "text") as [t|] eqn:Ht; [|done].
  destruct Hno. by exists d, t.
Qed.

Lemma getitem_returns_has_text (row t : pyobj) :
  getitem row "text" = Returns t → has_text row.
Proof.
  destruct row as [v|d]; [done|]. simpl.
  destruct (Dict.get d "text") as [u|] eqn:Hu; [|done].
  intros _. by exists d, u.
Qed.

Lemma build_intent_tps_returns_iff (rows : list pyobj)
    (tps : list (string * pyobj)) :
  (∃ r, build_intent_tps tps rows = Returns r) ↔ Forall has_text rows.
Proof.
  revert tps. induction rows as [|row rows IH]; intros tps.
  - split; [by intros _ | intros _; by eexists].
  - cbn [build_intent_tps]. split.
    + intros [r Hr]. destruct (getitem row "text") as [t|e] eqn:Hg; [|done].
      constructor; [by eapply getitem_returns_has_text|].
      apply (IH (Dict.set tps "text" t)). by exists r.
    + intros [Hrow Hrows]%Forall_cons.
      destruct (getitem_has_text row Hrow) as [t ->].
      by apply (IH (Dict.set tps "text" t)).
Qed.

Lemma build_intent_tps_first_bad (good rest : list pyobj) (bad : pyobj)
    (tps : list (string * pyobj)) :
  Forall has_text good → ¬ has_text bad →
  build_intent_tps tps (good ++ bad :: rest) = Raises (text_error bad).
Proof.
  revert tps. induction good as [|row good IH]; intros tps Hgood Hbad.
  - cbn [app build_intent_tps]. by rewrite getitem_not_has_text.
  - apply Forall_cons in Hgood as [Hrow Hgood].
    destruct (getitem_has_text row Hrow) as [t Ht].
    cbn [app build_intent_tps]. rewrite Ht.
    by apply (IH (Dict.set tps "text" t)).
Qed.

(** X1. [build_intent] returns exactly when every element of [phrases]
    is a dict with the key "text"; the empty list is such a list. *)
Theorem build_intent_returns_iff (display_name : pyobj) (phrases : list pyobj) :
  (∃ r : pyobj, build_intent display_name phrases = Returns r) ↔
  Forall has_text phrases.
Proof.
  rewrite <- (build_intent_tps_returns_iff phrases []). unfold build_intent.
  destruct (build_intent_tps [] phrases) as [tps|e]; simpl.
  - split; intros _; by eexists.
  - split; by intros [? ?].
Qed.

(** X2. The first element that is not a dict with the key "text" decides
    how [build_intent] fails, whatever comes after it: [KeyError] for
    the key when it is a dict, [TypeError] when it is not a dict. *)
Theorem build_intent_first_bad_row (display_name : pyobj)
    (good rest : list pyobj) (bad : pyobj) :
  Forall has_text good → ¬ has_text bad →
  build_intent display_name (good ++ bad :: rest) =
    Raises (match bad with
            | PyDict _ => KeyError "text"
            | PyVal _ => TypeError
            end).
Proof.
  intros Hgood Hbad. unfold build_intent.
  by rewrite (build_intent_tps_first_bad good rest bad []).
Qed.

Lemma build_intent_first_bad_row_witness :
  Forall has_text [PyDict [("text", PyVal (PyStr "hi"))]] ∧
  ¬ has_text (PyDict [("lang", PyVal (PyStr "en"))]) ∧
  build_intent (PyVal (PyStr "greet"))
    ([PyDict [("text", PyVal (PyStr "hi"))]]
     ++ PyDict [("lang", PyVal (PyStr "en"))] :: [PyVal PyNone])
  = Raises (KeyError "text").
Proof.
  assert (Hgood : Forall has_text [PyDict [("text", PyVal (PyStr "hi"))]]).
  { repeat constructor. by eexists _, _. }
  assert (Hbad : ¬ has_text (PyDict [("lang", PyVal (PyStr "en"))])).
  { intros (d & t & [= <-] & Ht). simpl in Ht. discriminate. }
  split; [exact Hgood|]. split; [exact Hbad|].
  exact (build_intent_first_bad_row (PyVal (PyStr "greet"))
           [PyDict [("text", PyVal (PyStr "hi"))]] [PyVal PyNone]
           (PyDict [("lang", PyVal (PyStr "en"))]) Hgood Hbad).
Defined.

(** ** What a call of a method can come to *)

Lemma bind_inv {A B : Type} (m : M A) (f : A → M B) (σ σ' : state)
    (r : outcome B) :
  (m ≫= f) σ = Some (r, σ') →
  (∃ e : exn, m σ = Some (Raises e, σ') ∧ r = Raises e) ∨
  (∃ (a : A) (σ1 : state), m σ = Some (Returns a, σ1) ∧ f a σ1 = Some (r, σ')).
Proof.
  unfold mbind, M_bind. destruct (m σ) as [[[a|e] σ1]|]; [| |done].
  - intros H. right. by exists a, σ1.
  - intros [= <- <-]. left. by exists e.
Qed.

(** A method that starts with the check either raises what the check
    raises, with the state as it was, or runs its body on a builder that
    owns a true message. *)
Lemma checked_inv {A : Type} (rest : M A) (σ σ' : state) (r : outcome A) :
  (_check_intent_exist ;; rest) σ = Some (r, σ') →
  (∃ e : exn, r = Raises e ∧ σ' = σ) ∨
  (∃ (o : loc) (i : Intent),
     owns σ o i ∧ Intent_bool i = true ∧ rest σ = Some (r, σ')).
Proof.
  intros [(e & Hc & ->)|([] & σ1 & Hc & Hrest)]%bind_inv.
  - apply check_intent_exist_inv in Hc as [-> _]. left. by exists e.
  - apply check_intent_exist_inv in Hc as [-> Hown].
    destruct (Hown eq_refl) as (o & i & Ho & Hb). right. by exists o, i.
Qed.

Lemma read_list_inv (l : loc) (σ σ' : state) (r : outcome (list pyval)) :
  read_list l σ = Some (r, σ') →
  ∃ v : list pyval, lists σ !! l = Some v ∧ r = Returns v ∧ σ' = σ.
Proof.
  unfold read_list. destruct (lists σ !! l) as [v|]; [|done].
  intros [= <- <-]. by exists v.
Qed.

(** A call of [add_training_phrase] that comes to an end either stopped
    at the check or found both lists in the store. *)
Lemma add_training_phrase_inv (phrase annotations : loc) (count : Z)
    (σ σ' : state) (r : outcome loc) :
  add_training_phrase phrase annotations count σ = Some (r, σ') →
  (∃ e : exn, r = Raises e ∧ σ' = σ) ∨
  (∃ (o : loc) (i : Intent) (ph an : list pyval),
     owns σ o i ∧ Intent_bool i = true ∧
     lists σ !! phrase = Some ph ∧ lists σ !! annotations = Some an).
Proof.
  unfold add_training_phrase.
  intros [?|(o & i & Ho & Hb & Hrest)]%checked_inv; [by left|]. right.
  apply bind_inv in Hrest as [(e & Hr & _)|(ph & σ1 & Hr & Hrest)].
  { apply read_list_inv in Hr as (? & _ & ? & _). done. }
  apply read_list_inv in Hr as (? & Hph & [= <-] & ->).
  apply bind_inv in Hrest as [(e & Hr & _)|(an & σ1 & Hr & _)].
  { apply read_list_inv in Hr as (? & _ & ? & _). done. }
  apply read_list_inv in Hr as (? & Han & [= <-] & ->).
  by exists o, i, ph, an.
Qed.

Lemma forallb_isinstance_str_Forall (l : list pyval) :
  forallb isinstance_str l = true ↔ Forall (λ v, isinstance_str v = true) l.
Proof.
  induction l as [|v l IH]; simpl.
  - split; [by constructor | done].
  - rewrite andb_true_iff, IH, Forall_cons. done.
Qed.

Lemma only_strings_check (ph an : list pyval) :
  forallb isinstance_str ph && forallb isinstance_str an = true ↔
  Forall (λ v, isinstance_str v = true) (ph ++ an).
Proof.
  by rewrite andb_true_iff, !forallb_isinstance_str_Forall, Forall_app.
Qed.

Lemma only_strings_not_out_of_range (z : Z) :
  only_strings_msg ≠ out_of_range_msg z.
Proof. unfold only_strings_msg, out_of_range_msg. simpl. discriminate. Qed.

Lemma no_proto_obj_not_out_of_range (z : Z) :
  no_proto_obj_msg ≠ out_of_range_msg z.
Proof. unfold no_proto_obj_msg, out_of_range_msg. simpl. discriminate. Qed.

(** X3. On a builder that owns a message passing the check,
    [add_training_phrase] has four outcomes and no other.  It raises the
    [ValueError] for the element types exactly when some element of
    either list is not a [str], also when the annotations are too many;
    it raises the [IndexError] exactly when all are and the annotations
    are more than the elements of the phrase; both leave the state as it
    was.  When all are and the annotations are no more, it raises the
    [ValueError] of the message constructor exactly when the repeat
    count is outside the 32-bit range, and then the annotations have
    been padded already; and it returns the owned message exactly when
    the repeat count is within the range. *)
Theorem add_training_phrase_outcomes (σ : state) (o : loc) (i : Intent)
    (phrase annotations : loc) (ph an : list pyval) (count : Z) :
  owns σ o i → Intent_bool i = true →
  lists σ !! phrase = Some ph → lists σ !! annotations = Some an →
  (add_training_phrase phrase annotations count σ
     = Some (Raises (ValueError only_strings_msg), σ) ↔
   ¬ Forall (λ v, isinstance_str v = true) (ph ++ an)) ∧
  (add_training_phrase phrase annotations count σ
     = Some (Raises (IndexError annotations_too_long_msg), σ) ↔
   Forall (λ v, isinstance_str v = true) (ph ++ an) ∧
   (length ph < length an)%nat) ∧
  (add_training_phrase phrase annotations count σ
     = Some (Raises (ValueError (out_of_range_msg count)),
             set_list σ annotations
               (an ++ replicate (length ph - length an) (PyStr ""))) ↔
   Forall (λ v, isinstance_str v = true) (ph ++ an) ∧
   (length an ≤ length ph)%nat ∧
   ¬ (-2147483648 ≤ count ≤ 2147483647)) ∧
  ((∃ σ' : state,
      add_training_phrase phrase annotations count σ
        = Some (Returns o, σ')) ↔
   Forall (λ v, isinstance_str v = true) (ph ++ an) ∧
   (length an ≤ length ph)%nat ∧
   -2147483648 ≤ count ≤ 2147483647).
Proof.
  intros Ho Hb Hph Han.
  rewrite (add_training_phrase_owned σ o i phrase annotations ph an) by done.
  rewrite <- only_strings_check, <- in_int32_bounds.
  pose proof (only_strings_not_out_of_range count) as Hmsg.
  destruct (forallb isinstance_str ph && forallb isinstance_str an); simpl;
    [destruct (Nat.ltb (length ph) (length an)) eqn:Hlen;
       [apply Nat.ltb_lt in Hlen
       | apply Nat.ltb_ge in Hlen; destruct (in_int32 count)] |];
    (split; [|split; [|split]]); split; intros H;
    first
      [ done
      | by destruct H
      | by (destruct H as (_ & _ & H); destruct H)
      | by (destruct H as (? & ? & ?); lia)
      | by (destruct H as [? ?]; lia)
      | by (injection H as H _; destruct Hmsg)
      | by eexists
      | by intros ?
      | by (repeat split; first [done | lia | by intros ?]) ].
Qed.

Lemma add_training_phrase_outcomes_witness :
  owns a3_builder 1%positive (Intent_named "book") ∧
  Intent_bool (Intent_named "book") = true ∧
  lists a3_builder !! 2%positive = Some [PyStr "a"; PyInt 3] ∧
  lists a3_builder !! 3%positive = Some [PyStr "x"] ∧
  (add_training_phrase 2%positive 3%positive default_repeat_count a3_builder
     = Some (Raises (ValueError only_strings_msg), a3_builder) ↔
   ¬ Forall (λ v, isinstance_str v = true)
       ([PyStr "a"; PyInt 3] ++ [PyStr "x"])).
Proof.
  assert (Ho : owns a3_builder 1%positive (Intent_named "book")) by done.
  assert (Hb : Intent_bool (Intent_named "book") = true) by done.
  assert (Hph : lists a3_builder !! 2%positive = Some [PyStr "a"; PyInt 3])
    by done.
  assert (Han : lists a3_builder !! 3%positive = Some [PyStr "x"]) by done.
  split; [exact Ho|]. split; [exact Hb|]. split; [exact Hph|].
  split; [exact Han|].
  exact (proj1 (add_training_phrase_outcomes a3_builder 1%positive
                  (Intent_named "book") 2%positive 3%positive
                  [PyStr "a"; PyInt 3] [PyStr "x"] default_repeat_count
                  Ho Hb Hph Han)).
Defined.

Example add_training_phrase_non_string :
  add_training_phrase 2%positive 3%positive default_repeat_count a3_builder
  = Some (Raises (ValueError only_strings_msg), a3_builder).
Proof. vm_compute. reflexivity. Qed.



Example add_training_phrase_count_out_of_range :
  add_training_phrase 2%positive 3%positive 2147483648 abc_builder
  = Some (Raises (ValueError "Value out of range: 2147483648"),
          abc_builder_padded).
Proof. vm_compute. reflexivity. Qed.

(** X5. When a call of [add_training_phrase] with as many annotations as
    elements of the phrase returns, every list of the store holds what
    it held before, also when the two arguments are one and the same
    list. *)
Theorem add_training_phrase_equal_length_keeps_lists
    (σ σ' : state) (phrase annotations : loc) (ph an : list pyval)
    (count : Z) (r : loc) :
  lists σ !! phrase = Some ph →
  lists σ !! annotations = Some an →
  length an = length ph →
  add_training_phrase phrase annotations count σ = Some (Returns r, σ') →
  lists σ' = lists σ.
Proof.
  intros Hph Han Hlen Hcall.
  destruct (add_training_phrase_inv _ _ _ _ _ _ Hcall)
    as [(? & ? & _)|(o & i & ph' & an' & Ho & Hb & Hph' & Han')]; [done|].
  rewrite (add_training_phrase_owned σ o i phrase annotations ph an)
    in Hcall by done.
  destruct (negb _); [done|].
  destruct (Nat.ltb _ _); [done|].
  simpl in Hcall. destruct (in_int32 count); [|done].
  injection Hcall as _ <-. simpl.
  rewrite Hlen, Nat.sub_diag. simpl. rewrite (right_id_L [] (++)).
  by apply insert_id.
Qed.

Lemma add_training_phrase_equal_length_keeps_lists_witness :
  lists a_x_builder !! 2%positive = Some [PyStr "a"] ∧
  lists a_x_builder !! 3%positive = Some [PyStr "x"] ∧
  length [PyStr "x"] = length [PyStr "a"] ∧
  add_training_phrase 2%positive 3%positive default_repeat_count a_x_builder
    = Some (Returns 1%positive, a_x_builder_after) ∧
  lists a_x_builder_after = lists a_x_builder.
Proof.
  assert (Hph : lists a_x_builder !! 2%positive = Some [PyStr "a"]) by done.
  assert (Han : lists a_x_builder !! 3%positive = Some [PyStr "x"]) by done.
  assert (Hlen : length [PyStr "x"] = length [PyStr "a"]) by reflexivity.
  assert (Hcall :
    add_training_phrase 2%positive 3%positive default_repeat_count a_x_builder
    = Some (Returns 1%positive, a_x_builder_after))
    by (vm_compute; reflexivity).
  split; [exact Hph|]. split; [exact Han|]. split; [exact Hlen|].
  split; [exact Hcall|].
  exact (add_training_phrase_equal_length_keeps_lists
           a_x_builder a_x_builder_after 2%positive 3%positive
           [PyStr "a"] [PyStr "x"] default_repeat_count 1%positive
           Hph Han Hlen Hcall).
Defined.

(** ** The builder stays usable *)

Lemma Intent_bool_append_training_phrase (tp : TrainingPhrase) (i : Intent) :
  Intent_bool (Intent_append_training_phrase tp i) = true.
Proof.
  unfold Intent_bool, Intent_append_training_phrase. simpl.
  rewrite (bool_decide_eq_false_2 (training_phrases i ++ [tp] = []))
    by (by destruct (training_phrases i)).
  simpl. by rewrite !orb_true_r.
Qed.

Lemma Intent_bool_append_parameter (p : IntentParameter) (i : Intent) :
  Intent_bool (Intent_append_parameter p i) = true.
Proof.
  unfold Intent_bool, Intent_append_parameter. simpl.
  rewrite (bool_decide_eq_false_2 (parameters i ++ [p] = []))
    by (by destruct (parameters i)).
  simpl. by rewrite !orb_true_r.
Qed.

Lemma union_empty_inv (d m : gmap string string) : d ∪ m = ∅ → m = ∅.
Proof.
  intros H. apply map_eq. intros k. rewrite lookup_empty.
  assert (Hk : (d ∪ m) !! k = None) by by rewrite H, lookup_empty.
  by apply lookup_union_None in Hk as [_ ?].
Qed.

Lemma Intent_bool_update_labels (d : gmap string string) (i : Intent) :
  Intent_bool i = true → Intent_bool (Intent_update_labels d i) = true.
Proof.
  unfold Intent_bool, Intent_update_labels. simpl.
  destruct (bool_decide (labels i = ∅)) eqn:Hl.
  - simpl. rewrite orb_false_r. intros ->. done.
  - intros _. apply bool_decide_eq_false in Hl.
    rewrite (bool_decide_eq_false_2 (d ∪ labels i = ∅))
      by (intros ?%union_empty_inv; done).
    simpl. by rewrite !orb_true_r.
Qed.

Lemma owns_set_intent (σ : state) (o : loc) (i i' : Intent) :
  owns σ o i → owns (set_intent σ o i') o i'.
Proof. intros [Hp _]. split; [done|]. simpl. apply lookup_insert_eq. Qed.

(** X6. Whenever one of [add_training_phrase], [add_parameter] and
    [add_label] returns, what it returns is the object that [proto_obj]
    referred to before the call, the builder still owns that object
    after it, and the message passes the check of the builder: a method
    that has returned once is not stopped by the check later. *)
Theorem methods_keep_builder_usable (σ σ' : state) (r : loc) :
  (∀ (phrase annotations : loc) (count : Z),
     add_training_phrase phrase annotations count σ = Some (Returns r, σ') →
     proto_obj σ = Some r ∧
     ∃ i' : Intent, owns σ' r i' ∧ Intent_bool i' = true) ∧
  (∀ (pid etype : string) (lst red : bool),
     add_parameter pid etype lst red σ = Some (Returns r, σ') →
     proto_obj σ = Some r ∧
     ∃ i' : Intent, owns σ' r i' ∧ Intent_bool i' = true) ∧
  (∀ labels : labels_arg,
     add_label labels σ = Some (Returns r, σ') →
     proto_obj σ = Some r ∧
     ∃ i' : Intent, owns σ' r i' ∧ Intent_bool i' = true).
Proof.
  split; [|split].
  - intros phrase annotations count Hcall.
    destruct (add_training_phrase_inv _ _ _ _ _ _ Hcall)
      as [(? & ? & _)|(o & i & ph & an & Ho & Hb & Hph & Han)]; [done|].
    rewrite (add_training_phrase_owned σ o i phrase annotations ph an)
      in Hcall by done.
    destruct (negb _); [done|]. destruct (Nat.ltb _ _); [done|].
    simpl in Hcall. destruct (in_int32 count); [|done].
    injection Hcall as <- <-.
    split; [apply Ho|]. eexists. split.
    + by apply (owns_set_intent _ o i).
    + apply Intent_bool_append_training_phrase.
  - intros pid etype lst red Hcall. pose proof Hcall as Hc.
    unfold add_parameter in Hc.
    apply checked_inv in Hc as [(? & ? & _)|(o & i & Ho & Hb & _)]; [done|].
    rewrite (add_parameter_owned σ o i) in Hcall by done.
    injection Hcall as <- <-.
    split; [apply Ho|]. eexists. split.
    + by apply (owns_set_intent _ o i).
    + apply Intent_bool_append_parameter.
  - intros labels Hcall. pose proof Hcall as Hc. unfold add_label in Hc.
    apply checked_inv in Hc as [(? & ? & _)|(o & i & Ho & Hb & _)]; [done|].
    rewrite (add_label_owned σ o i) in Hcall by done.
    destruct (negb _).
    + injection Hcall as <- <-. split; [apply Ho|]. by exists i.
    + destruct labels as [l|d|v]; [| |done]; injection Hcall as <- <-;
        (split; [apply Ho|]); eexists;
        (split; [by apply (owns_set_intent _ o i)
                | by apply Intent_bool_update_labels]).
Qed.

Lemma methods_keep_builder_usable_witness :
  add_training_phrase 2%positive 3%positive default_repeat_count a_x_builder
    = Some (Returns 1%positive, a_x_builder_after) ∧
  proto_obj a_x_builder = Some 1%positive ∧
  ∃ i' : Intent, owns a_x_builder_after 1%positive i' ∧ Intent_bool i' = true.
Proof.
  assert (Hcall :
    add_training_phrase 2%positive 3%positive default_repeat_count a_x_builder
    = Some (Returns 1%positive, a_x_builder_after))
    by (vm_compute; reflexivity).
  split; [exact Hcall|].
  exact (proj1 (methods_keep_builder_usable a_x_builder a_x_builder_after
                  1%positive)
           2%positive 3%positive default_repeat_count Hcall).
Defined.

(** ** [create_empty_intent] and [load_intent], followed by a method *)

Lemma Intent_bool_empty (name : string) (prio : Z) (fallback : bool)
    (descr : string) :
  Intent_bool {| display_name := name; priority := prio;
                 is_fallback := fallback; description := descr;
                 training_phrases := []; parameters := []; labels := ∅ |}
  = false ↔
  name = "" ∧ prio = 0 ∧ fallback = false ∧ descr = "".
Proof.
  unfold Intent_bool. simpl. rewrite !orb_false_r.
  rewrite !orb_false_iff, !negb_false_iff, !String.eqb_eq, Z.eqb_eq.
  split.
  - by intros [[[-> ->] ->] ->].
  - by intros (-> & -> & -> & ->).
Qed.

Lemma default_empty_string (descr : option string) :
  default "" descr = "" ↔ descr = None ∨ descr = Some "".
Proof.
  destruct descr as [d|]; simpl.
  - split; [intros ->; by right | by intros [?|[= ->]]].
  - split; [by left | done].
Qed.

(** X7. [add_parameter] called right after [create_empty_intent] ends in
    one of three ways.  With a priority outside the 32-bit range the
    message constructor raises its [ValueError], no message is made and
    the state is as before.  With the empty display name, priority 0,
    [is_fallback] false and no description or an empty one, the new
    message is stopped by the check: [add_parameter] raises the
    [ValueError] that says there is no [proto_obj].  With any other
    arguments whose priority is within the range, the default priority
    among them, it returns the new message. *)
Theorem create_empty_intent_then_add_parameter
    (σ : state) (name : string) (prio : Z) (fallback : bool)
    (descr : option string) (pid etype : string) (lst red : bool) :
  ((create_empty_intent name prio fallback descr ;;
    add_parameter pid etype lst red) σ
   = Some (Raises (ValueError (out_of_range_msg prio)), σ) ↔
   ¬ (-2147483648 ≤ prio ≤ 2147483647)) ∧
  ((∃ σ' : state,
      (create_empty_intent name prio fallback descr ;;
       add_parameter pid etype lst red) σ
      = Some (Raises (ValueError no_proto_obj_msg), σ')) ↔
   name = "" ∧ prio = 0 ∧ fallback = false ∧
   (descr = None ∨ descr = Some "")) ∧
  ((∃ (o : loc) (σ' : state),
      intents σ !! o = None ∧
      (create_empty_intent name prio fallback descr ;;
       add_parameter pid etype lst red) σ
      = Some (Returns o, σ')) ↔
   -2147483648 ≤ prio ≤ 2147483647 ∧
   ¬ (name = "" ∧ prio = 0 ∧ fallback = false ∧
      (descr = None ∨ descr = Some ""))).
Proof.
  rewrite <- default_empty_string, <- Intent_bool_empty.
  pose proof (no_proto_obj_not_out_of_range prio) as Hmsg.
  pose proof (create_empty_intent_run σ name prio fallback descr) as Hrun.
  destruct (in_int32 prio) eqn:Hr.
  - apply in_int32_bounds in Hr.
    rewrite (bind_returns _ _ σ _ _ Hrun).
    set (o := fresh (dom (intents σ))).
    set (i0 := {| display_name := name; priority := prio;
                  is_fallback := fallback; description := default "" descr;
                  training_phrases := []; parameters := []; labels := ∅ |}).
    set (σ0 := {| lists := lists σ; intents := <[o := i0]> (intents σ);
                  proto_obj := Some o |}).
    assert (Ho : owns σ0 o i0).
    { split; [done|]. simpl. apply lookup_insert_eq. }
    destruct (Intent_bool i0) eqn:Hb.
    + rewrite (add_parameter_owned σ0 o i0) by done.
      split; [|split].
      * split; [done | by intros ?].
      * split; [by intros [? ?] | done].
      * split; [done|]. intros _. exists o. eexists. split; [|done].
        apply not_elem_of_dom, is_fresh.
    + unfold add_parameter.
      rewrite (checked_raises _ σ0 _
                 (check_intent_exist_false σ0 o i0 Ho Hb)).
      split; [|split].
      * split; [|by intros ?]. intros H. injection H as H _.
        by destruct Hmsg.
      * split; [done|]. intros _. by eexists.
      * split; [by intros (? & ? & _ & ?) | by intros [_ ?]].
  - rewrite (bind_raises _ _ σ _ _ Hrun). apply in_int32_not_bounds in Hr.
    split; [|split].
    + done.
    + split.
      * intros [σ' H]. injection H as H _. by destruct Hmsg.
      * intros Hall. apply Intent_bool_empty in Hall as (_ & -> & _).
        destruct Hr. lia.
    + split; [by intros (? & ? & _ & ?) | by intros [? _]].
Qed.

(** X8. Given a message that passes the check of the builder,
    [load_intent] takes it as it is, without a copy: it returns the very
    object and changes nothing, and [add_parameter] called next changes
    that object, where the caller holds it, and makes no new one. *)
Theorem load_intent_adopts_object (σ : state) (obj : loc) (i : Intent)
    (pid etype : string) (lst red : bool) :
  intents σ !! obj = Some i → Intent_bool i = true →
  load_intent obj σ =
    Some (Returns obj,
          {| lists := lists σ; intents := intents σ;
             proto_obj := Some obj |}) ∧
  (load_intent obj ;; add_parameter pid etype lst red) σ =
    Some (Returns obj,
          {| lists := lists σ;
             intents :=
               <[obj := {| display_name := display_name i;
                           priority := priority i;
                           is_fallback := is_fallback i;
                           description := description i;
                           training_phrases := training_phrases i;
                           parameters :=
                             parameters i ++
                             [{| id := pid; entity_type := etype;
                                 is_list := lst; redact := red |}];
                           labels := labels i |}]> (intents σ);
             proto_obj := Some obj |}) ∧
  dom (<[obj := Intent_append_parameter
                  {| id := pid; entity_type := etype; is_list := lst;
                     redact := red |} i]> (intents σ))
    = dom (intents σ).
Proof.
  intros Hi Hb.
  assert (Hload : load_intent obj σ =
            Some (Returns obj,
                  {| lists := lists σ; intents := intents σ;
                     proto_obj := Some obj |})) by done.
  split; [done|]. split.
  - rewrite (bind_returns _ _ σ _ _ Hload).
    by rewrite (add_parameter_owned _ obj i).
  - rewrite dom_insert_L. apply subseteq_union_1_L, singleton_subseteq_l.
    apply elem_of_dom. by eexists.
Qed.

Lemma load_intent_adopts_object_witness :
  intents (store_of Intent_with_city [] []) !! 1%positive
    = Some Intent_with_city ∧
  Intent_bool Intent_with_city = true ∧
  (load_intent 1%positive ;; add_parameter "day" "@sys.date" false false)
    (store_of Intent_with_city [] []) =
    Some (Returns 1%positive,
          {| lists := lists (store_of Intent_with_city [] []);
             intents :=
               <[1%positive :=
                   {| display_name := "book"; priority := default_priority;
                      is_fallback := false; description := "";
                      training_phrases := [];
                      parameters :=
                        [{| id := "city"; entity_type := "@sys.geo-city";
                            is_list := false; redact := false |};
                         {| id := "day"; entity_type := "@sys.date";
                            is_list := false; redact := false |}];
                      labels := ∅ |}]>
                 (intents (store_of Intent_with_city [] []));
             proto_obj := Some 1%positive |}).
Proof.
  assert (Hi : intents (store_of Intent_with_city [] []) !! 1%positive
               = Some Intent_with_city) by done.
  assert (Hb : Intent_bool Intent_with_city = true) by done.
  split; [exact Hi|]. split; [exact Hb|].
  exact (proj1 (proj2 (load_intent_adopts_object
                         (store_of Intent_with_city [] []) 1%positive
                         Intent_with_city "day" "@sys.date" false false
                         Hi Hb))).
Defined.

(** ** [add_label]: composition *)

Lemma set_intent_set_intent (σ : state) (o : loc) (i i' : Intent) :
  set_intent (set_intent σ o i) o i' = set_intent σ o i'.
Proof. unfold set_intent. simpl. by rewrite insert_insert_eq. Qed.

Lemma Intent_update_labels_twice (d1 d2 : gmap string string) (i : Intent) :
  Intent_update_labels d2 (Intent_update_labels d1 i)
  = Intent_update_labels (d2 ∪ d1) i.
Proof.
  unfold Intent_update_labels. simpl. by rewrite (assoc_L (∪)).
Qed.

Lemma add_label_dict_owned (σ : state) (o : loc) (i : Intent)
    (d : gmap string string) :
  owns σ o i → Intent_bool i = true →
  add_label (LabelsDict d) σ =
    Some (Returns o, set_intent σ o (Intent_update_labels d i)).
Proof.
  intros Ho Hb. rewrite (add_label_owned σ o i) by done. simpl.
  destruct (bool_decide (d = ∅)) eqn:Hd; simpl; [|done].
  apply bool_decide_eq_true in Hd as ->.
  do 2 f_equal. rewrite <- (set_intent_same σ o i Ho) at 1.
  f_equal. unfold Intent_update_labels.
  rewrite (left_id_L ∅ (∪)). by destruct i.
Qed.

(** X9. On a builder that owns a message passing the check, two calls
    of [add_label] with dicts come to the same as one call with the
    second dict laid over the first: the same return value and the same
    state. *)
Theorem add_label_twice (σ : state) (o : loc) (i : Intent)
    (d1 d2 : gmap string string) :
  owns σ o i → Intent_bool i = true →
  (add_label (LabelsDict d1) ;; add_label (LabelsDict d2)) σ
  = add_label (LabelsDict (d2 ∪ d1)) σ.
Proof.
  intros Ho Hb.
  rewrite (bind_returns _ _ σ _ _ (add_label_dict_owned σ o i d1 Ho Hb)).
  rewrite (add_label_dict_owned _ o (Intent_update_labels d1 i));
    [|by apply (owns_set_intent σ o i) | by apply Intent_bool_update_labels].
  rewrite (add_label_dict_owned σ o i (d2 ∪ d1)) by done.
  by rewrite set_intent_set_intent, Intent_update_labels_twice.
Qed.

Lemma add_label_twice_witness :
  owns label_a_builder 1%positive Intent_label_a ∧
  Intent_bool Intent_label_a = true ∧
  (add_label (LabelsDict {[ "b" := "1" ]}) ;;
   add_label (LabelsDict {[ "b" := "2"; "c" := "3" ]})) label_a_builder
  = add_label (LabelsDict ({[ "b" := "2"; "c" := "3" ]} ∪ {[ "b" := "1" ]}))
      label_a_builder.
Proof.
  assert (Ho : owns label_a_builder 1%positive Intent_label_a) by done.
  assert (Hb : Intent_bool Intent_label_a = true) by done.
  split; [exact Ho|]. split; [exact Hb|].
  exact (add_label_twice label_a_builder 1%positive Intent_label_a
           {[ "b" := "1" ]} {[ "b" := "2"; "c" := "3" ]} Ho Hb).
Defined.

(** X10. On a builder that owns a message passing the check, what
    [add_label] does with a list of strings depends on which strings are
    in the list and on nothing else: neither their order nor how often
    one occurs changes the outcome. *)
Theorem add_label_list_as_set (σ : state) (o : loc) (i : Intent)
    (l l' : list string) :
  owns σ o i → Intent_bool i = true →
  (∀ s : string, s ∈ l ↔ s ∈ l') →
  add_label (LabelsList l) σ = add_label (LabelsList l') σ.
Proof.
  intros Ho Hb Hsame.
  assert (Hmap : labels_of_list l = labels_of_list l').
  { apply map_eq. intros k. rewrite !labels_of_list_lookup.
    destruct (decide (k ∈ l)) as [Hk|Hk];
      destruct (decide (k ∈ l')) as [Hk'|Hk']; try done.
    - by apply Hsame in Hk.
    - by apply Hsame in Hk'. }
  rewrite !(add_label_owned σ o i) by done. simpl. rewrite Hmap.
  destruct l as [|x l]; destruct l' as [|x' l']; try done.
  - exfalso. apply (not_elem_of_nil x'). apply Hsame. by left.
  - exfalso. apply (not_elem_of_nil x). apply Hsame. by left.
Qed.

Lemma add_label_list_as_set_witness :
  owns label_a_builder 1%positive Intent_label_a ∧
  Intent_bool Intent_label_a = true ∧
  (∀ s : string, s ∈ ["vip"; "urgent"; "vip"] ↔ s ∈ ["urgent"; "vip"]) ∧
  add_label (LabelsList ["vip"; "urgent"; "vip"]) label_a_builder
  = add_label (LabelsList ["urgent"; "vip"]) label_a_builder.
Proof.
  assert (Ho : owns label_a_builder 1%positive Intent_label_a) by done.
  assert (Hb : Intent_bool Intent_label_a = true) by done.
  assert (Hsame : ∀ s : string,
            s ∈ ["vip"; "urgent"; "vip"] ↔ s ∈ ["urgent"; "vip"]).
  { intros s. rewrite !elem_of_cons, !elem_of_nil. tauto. }
  split; [exact Ho|]. split; [exact Hb|]. split; [exact Hsame|].
  exact (add_label_list_as_set label_a_builder 1%positive Intent_label_a
           ["vip"; "urgent"; "vip"] ["urgent"; "vip"] Ho Hb Hsame).
Defined.

(** ** [_parameter_checking] after a method *)

Lemma parameter_checking_returns_iff (set_iter : gset string → list string)
    (σ : state) (o : loc) (i : Intent) :
  (∀ X : gset string, set_iter X ≡ₚ elements X) →
  owns σ o i →
  _parameter_checking set_iter σ = Some (Returns tt, σ) ↔
  ∀ x : string, referenced i x → declared i x.
Proof.
  intros Hperm Ho.
  destruct (parameter_checking_owned set_iter σ o i Ho)
    as (refs & decls & Hrefs & Hdecls & ->).
  assert (Hiter : ∀ x, In x (set_iter refs) ↔ referenced i x).
  { intros x. rewrite <- list_elem_of_In, Hperm, elem_of_elements.
    apply Hrefs. }
  destruct (find _ (set_iter refs)) as [x|] eqn:Hfind.
  - apply find_some in Hfind as [Hin Hneg].
    apply Hiter in Hin. apply negb_true_iff, bool_decide_eq_false in Hneg.
    rewrite Hdecls in Hneg.
    split; [done|]. intros Hall. destruct Hneg. by apply Hall.
  - split; [|done]. intros _ x Hx. apply Hiter in Hx.
    pose proof (find_none _ _ Hfind x Hx) as Hneg. simpl in Hneg.
    apply negb_false_iff, bool_decide_eq_true in Hneg.
    by apply Hdecls.
Qed.

(** X11. [add_parameter] is what repairs the check.  On a builder that
    owns a message passing the presence check, after
    [add_parameter(pid, ...)] the cross-reference check returns exactly
    when every id that a part refers to was declared before or is [pid];
    so a check that returned before returns after, also when [pid] was
    declared already, and no id is refused for being declared twice. *)
Theorem add_parameter_then_check (set_iter : gset string → list string)
    (σ : state) (o : loc) (i : Intent) (pid etype : string) (lst red : bool) :
  (∀ X : gset string, set_iter X ≡ₚ elements X) →
  owns σ o i → Intent_bool i = true →
  ∃ σ1 : state,
    add_parameter pid etype lst red σ = Some (Returns o, σ1) ∧
    (_parameter_checking set_iter σ1 = Some (Returns tt, σ1) ↔
     ∀ x : string, referenced i x → declared i x ∨ x = pid).
Proof.
  intros Hperm Ho Hb. eexists. split; [by apply add_parameter_owned|].
  rewrite (parameter_checking_returns_iff set_iter _ o _ Hperm
             (owns_set_intent σ o i _ Ho)).
  assert (Hdecl : ∀ x,
    declared (Intent_append_parameter
                {| id := pid; entity_type := etype; is_list := lst;
                   redact := red |} i) x ↔ declared i x ∨ x = pid).
  { intros x. unfold declared. simpl. split.
    - intros (p & [Hp|Hp]%elem_of_app & Hx); [left; by exists p|].
      apply list_elem_of_singleton in Hp as ->. by right.
    - intros [(p & Hp & Hx)| ->].
      + exists p. split; [|done]. apply elem_of_app. by left.
      + eexists. split; [apply elem_of_app; right; by left | done]. }
  split; intros Hall x Hx; apply Hdecl || apply Hdecl in Hall; by apply Hall.
Qed.

Lemma add_parameter_then_check_witness :
  (∀ X : gset string, elements X ≡ₚ elements X) ∧
  owns city_part_builder 1%positive Intent_city_part ∧
  Intent_bool Intent_city_part = true ∧
  ∃ σ1 : state,
    add_parameter "city" "@sys.geo-city" false false city_part_builder
      = Some (Returns 1%positive, σ1) ∧
    (_parameter_checking elements σ1 = Some (Returns tt, σ1) ↔
     ∀ x : string,
       referenced Intent_city_part x →
       declared Intent_city_part x ∨ x = "city").
Proof.
  assert (Hperm : ∀ X : gset string, elements X ≡ₚ elements X)
    by (intros X; reflexivity).
  assert (Ho : owns city_part_builder 1%positive Intent_city_part) by done.
  assert (Hb : Intent_bool Intent_city_part = true) by done.
  split; [exact Hperm|]. split; [exact Ho|]. split; [exact Hb|].
  exact (add_parameter_then_check elements city_part_builder 1%positive
           Intent_city_part "city" "@sys.geo-city" false false Hperm Ho Hb).
Defined.

(** The parameter ids of the parts built from a phrase and as many or
    fewer annotations are the annotations. *)
Lemma parameter_id_zip_with (ph pd : list string) :
  (length pd ≤ length ph)%nat →
  parameter_id <$> zip_with Build_Part ph pd = pd.
Proof.
  revert pd. induction ph as [|t ph IH]; intros [|p pd] Hlen; simpl in *;
    try done; try lia.
  rewrite IH by lia. done.
Qed.

Lemma referenced_append_training_phrase (i : Intent) (tp : TrainingPhrase)
    (x : string) :
  referenced (Intent_append_training_phrase tp i) x ↔
  referenced i x ∨ (x ≠ "" ∧ x ∈ parameter_id <$> parts tp).
Proof.
  unfold referenced. simpl. split.
  - intros (Hne & tp' & part & [Htp|Htp]%elem_of_app & Hpart & Hx).
    + left. split; [done|]. by exists tp', part.
    + apply list_elem_of_singleton in Htp as ->. right. split; [done|].
      apply list_elem_of_fmap. by exists part.
  - intros [(Hne & tp' & part & Htp & Hpart & Hx)|(Hne & Hx)].
    + split; [done|]. exists tp', part. split; [|done].
      apply elem_of_app. by left.
    + apply list_elem_of_fmap in Hx as (part & -> & Hpart).
      split; [done|]. exists tp, part. split; [|done].
      apply elem_of_app. right. by left.
Qed.

(** X12. [add_training_phrase] does not look at the declared parameters:
    on a builder that owns a message passing the presence check, with
    lists of strings, no more annotations than phrase elements and a
    repeat count within the 32-bit range, it returns whatever the
    annotations are.  The cross-reference check
    run after it returns exactly when it would have returned before and
    each annotation other than the empty string is the id of a declared
    parameter; the empty strings of the padding ask for nothing. *)
Theorem add_training_phrase_then_check (set_iter : gset string → list string)
    (σ : state) (o : loc) (i : Intent) (phrase annotations : loc)
    (ph an : list string) (count : Z) :
  (∀ X : gset string, set_iter X ≡ₚ elements X) →
  owns σ o i → Intent_bool i = true →
  lists σ !! phrase = Some (PyStr <$> ph) →
  lists σ !! annotations = Some (PyStr <$> an) →
  (length an ≤ length ph)%nat →
  -2147483648 ≤ count ≤ 2147483647 →
  ∃ σ1 : state,
    add_training_phrase phrase annotations count σ = Some (Returns o, σ1) ∧
    (_parameter_checking set_iter σ1 = Some (Returns tt, σ1) ↔
     (∀ x : string, referenced i x → declared i x) ∧
     (∀ x : string, x ∈ an → x ≠ "" → declared i x)).
Proof.
  intros Hperm Ho Hb Hph Han Hlen Hcount. eexists.
  split; [by apply add_training_phrase_strings|].
  assert (Ho1 : owns (set_list σ annotations
                        (PyStr <$> (an ++ replicate (length ph - length an) "")))
                  o i) by (destruct Ho; by split).
  rewrite (parameter_checking_returns_iff set_iter _ o _ Hperm
             (owns_set_intent _ o i _ Ho1)).
  assert (Hpad : ∀ x, x ≠ "" →
            x ∈ an ++ replicate (length ph - length an) "" ↔ x ∈ an).
  { intros x Hne. rewrite elem_of_app. split; [|by left].
    intros [?|[? _]%elem_of_replicate]; done. }
  split.
  - intros Hall. split.
    + intros x Hx. apply (Hall x).
      apply referenced_append_training_phrase. by left.
    + intros x Hx Hne. apply (Hall x).
      apply referenced_append_training_phrase. right. split; [done|].
      simpl. rewrite parameter_id_zip_with
        by (rewrite length_app, length_replicate; lia).
      by apply Hpad.
  - intros [Hold Hnew] x [Hx|[Hne Hx]]%referenced_append_training_phrase.
    + by apply Hold.
    + simpl in Hx. rewrite parameter_id_zip_with in Hx
        by (rewrite length_app, length_replicate; lia).
      apply Hnew; [|done]. by apply Hpad.
Qed.

Lemma add_training_phrase_then_check_witness :
  (∀ X : gset string, elements X ≡ₚ elements X) ∧
  owns abc_builder 1%positive (Intent_named "book") ∧
  Intent_bool (Intent_named "book") = true ∧
  lists abc_builder !! 2%positive = Some (PyStr <$> ["a"; "b"; "c"]) ∧
  lists abc_builder !! 3%positive = Some (PyStr <$> ["x"]) ∧
  (length ["x"] ≤ length ["a"; "b"; "c"])%nat ∧
  -2147483648 ≤ default_repeat_count ≤ 2147483647 ∧
  ∃ σ1 : state,
    add_training_phrase 2%positive 3%positive default_repeat_count abc_builder
      = Some (Returns 1%positive, σ1) ∧
    (_parameter_checking elements σ1 = Some (Returns tt, σ1) ↔
     (∀ x : string,
        referenced (Intent_named "book") x →
        declared (Intent_named "book") x) ∧
     (∀ x : string,
        x ∈ ["x"] → x ≠ "" → declared (Intent_named "book") x)).
Proof.
  assert (Hperm : ∀ X : gset string, elements X ≡ₚ elements X)
    by (intros X; reflexivity).
  assert (Ho : owns abc_builder 1%positive (Intent_named "book")) by done.
  assert (Hb : Intent_bool (Intent_named "book") = true) by done.
  assert (Hph : lists abc_builder !! 2%positive
                = Some (PyStr <$> ["a"; "b"; "c"])) by done.
  assert (Han : lists abc_builder !! 3%positive = Some (PyStr <$> ["x"]))
    by done.
  assert (Hlen : (length ["x"] ≤ length ["a"; "b"; "c"])%nat)
    by (simpl; lia).
  assert (Hcount : -2147483648 ≤ default_repeat_count ≤ 2147483647)
    by (unfold default_repeat_count; lia).
  split; [exact Hperm|]. split; [exact Ho|]. split; [exact Hb|].
  split; [exact Hph|]. split; [exact Han|]. split; [exact Hlen|].
  split; [exact Hcount|].
  exact (add_training_phrase_then_check elements abc_builder 1%positive
           (Intent_named "book") 2%positive 3%positive
           ["a"; "b"; "c"] ["x"] default_repeat_count
           Hperm Ho Hb Hph Han Hlen Hcount).
Defined.

Example add_training_phrase_undeclared_annotation :
  fst <$> (add_training_phrase 2%positive 3%positive default_repeat_count ;;
           _parameter_checking elements) abc_builder
  = Some (Raises (Exception (parameter_missing_msg "x"))).
Proof. vm_compute. reflexivity. Qed.

(** ** What the methods leave alone *)



